(** * PB2S complaint system: a shallow embedding of [pb2s_complaint.py]

    The development follows the layout of the Python module:
    - Python strings ([lower], [split], the [in] operator on [str]);
    - the two detectors of [PB2SComplaint], which are pure;
    - the data model (enumerations, complaint records, JSON documents);
    - the complaint store, whose methods read the clock, draw identifiers,
      mutate [self.complaints] and rewrite the backing file: they live in a
      state-and-exception monad;
    - the properties of all of the above. *)

From Stdlib Require Import ZArith String Ascii List Bool Lia.
From Stdlib Require Import Floats.PrimFloat.
From stdpp Require Import gmap strings list pretty.

#[local] Set Warnings "-inexact-float,-register-all".
#[local] Open Scope string_scope.
#[local] Open Scope list_scope.
#[local] Open Scope Z_scope.

(** ** Python strings

    A [str] is modelled as a [string] whose characters are the code points
    below 256 (the Latin-1 block of Unicode).  On that block [str.lower]
    and [str.isspace] are the following tables. *)

Module PyStr.

Definition code (c : ascii) : N := N_of_ascii c.

Definition in_range (lo hi : N) (c : ascii) : bool :=
  ((lo <=? code c) && (code c <=? hi))%N.

(** [A-Z], and the accented capitals U+00C0..U+00DE without U+00D7. *)
Definition is_upper (c : ascii) : bool :=
  in_range 65 90 c || in_range 192 214 c || in_range 216 222 c.

Definition lower_char (c : ascii) : ascii :=
  if is_upper c then ascii_of_N (code c + 32) else c.

(** [s.lower()] *)
Fixpoint lower (s : string) : string :=
  match s with
  | EmptyString => EmptyString
  | String c r => String (lower_char c) (lower r)
  end.

(** [c.isspace()]: TAB..CR, FS..US, SPACE, NEL and NBSP. *)
Definition isspace (c : ascii) : bool :=
  in_range 9 13 c || in_range 28 32 c
  || (code c =? 133)%N || (code c =? 160)%N.

(** [s.startswith(p)] *)
Fixpoint startswith (p s : string) : bool :=
  match p, s with
  | EmptyString, _ => true
  | String a p', String b s' => if Ascii.eqb a b then startswith p' s' else false
  | String _ _, EmptyString => false
  end.

(** [p in s] for two strings: [p] occurs in [s] at some offset. *)
Fixpoint contains (p s : string) : bool :=
  startswith p s ||
  match s with
  | EmptyString => false
  | String _ r => contains p r
  end.

(** [s.split()] with no separator: maximal runs of non-space characters,
    in order, none of them empty.  [cur] is the run being read, kept in
    reverse. *)
Fixpoint split_go (s : string) (cur : list ascii) : list string :=
  let flush (k : list string) :=
    match cur with
    | [] => k
    | _ => string_of_list_ascii (rev cur) :: k
    end in
  match s with
  | EmptyString => flush []
  | String c r =>
      if isspace c then flush (split_go r []) else split_go r (c :: cur)
  end.

Definition split (s : string) : list string := split_go s [].

(** [any(p(x) for x in xs)] *)
Definition any {A} (p : A -> bool) (xs : list A) : bool := existsb p xs.

(** [xs[-n:]] for a positive [n]: the whole list when it is short. *)
Definition last_n {A} (n : nat) (xs : list A) : list A :=
  drop (length xs - n)%nat xs.

End PyStr.

(** ** Detectors *)

(** The result dictionary of [detect_cognitive_stress]. *)
Record StressAssessment := {
  stress_level : Z;
  signals : list string;
  requires_attention : bool
}.

(** [detect_cognitive_stress(self, context)].  The context is a dictionary
    from field names to numbers; the three fields the detector reads are
    integers (a complexity level and two counts). *)
Definition detect_cognitive_stress (context : gmap string Z) : StressAssessment :=
  let stress_level := 0 in
  let signals := @nil string in
  let complexity := default 0 (context !! "complexity") in
  let '(stress_level, signals) :=
    if 7 <? complexity
    then (stress_level + 3,
          signals ++ ["High complexity detected: " +:+ pretty complexity +:+ "/10"])
    else (stress_level, signals) in
  let contradictions := default 0 (context !! "contradictions") in
  let '(stress_level, signals) :=
    if 0 <? contradictions
    then (stress_level + contradictions * 2,
          signals ++ ["Contradictions detected: " +:+ pretty contradictions])
    else (stress_level, signals) in
  let recursion_depth := default 0 (context !! "recursion_depth") in
  let '(stress_level, signals) :=
    if 5 <? recursion_depth
    then (stress_level + recursion_depth,
          signals ++ ["Excessive recursion: depth " +:+ pretty recursion_depth])
    else (stress_level, signals) in
  {| stress_level := Z.min stress_level 10;
     signals := signals;
     requires_attention := 5 <? stress_level |}.

(** One entry of the [details] list of [detect_contradiction]. *)
Record ContradictionDetail := {
  previous : string;
  current : string;
  common_elements : list string   (* [list(common_words)], in the set's own order *)
}.

(** The result dictionary of [detect_contradiction]. *)
Record ContradictionReport := {
  contradiction_detected : bool;
  count : nat;
  details : list ContradictionDetail
}.

Definition negation_words : list string :=
  ["don't"; "not"; "never"; "cannot"; "shouldn't"; "mustn't"].

(** [any(word in s.lower() for word in negation_words)] *)
Definition has_negation (s : string) : bool :=
  PyStr.any (fun word => PyStr.contains word (PyStr.lower s)) negation_words.

(** [set(s.lower().split())] *)
Definition word_set (s : string) : gset string :=
  list_to_set (PyStr.split (PyStr.lower s)).

(** The body of the [for prev in ...] loop: [contradictions] is the list
    built so far. *)
Definition contradiction_step (instruction : string) (current_negations : bool)
    (contradictions : list ContradictionDetail) (prev : string)
  : list ContradictionDetail :=
  let prev_negations := has_negation prev in
  if negb (Bool.eqb current_negations prev_negations) then
    let common_words := word_set instruction ∩ word_set prev in
    if (3 <? size common_words)%nat then
      contradictions ++ [{| previous := prev;
                            current := instruction;
                            common_elements := elements common_words |}]
    else contradictions
  else contradictions.

(** [detect_contradiction(self, instruction, previous_instructions)] *)
Definition detect_contradiction (instruction : string)
    (previous_instructions : list string) : ContradictionReport :=
  let current_negations := has_negation instruction in
  let contradictions :=
    fold_left (contradiction_step instruction current_negations)
              (PyStr.last_n 5 previous_instructions) [] in
  {| contradiction_detected := (0 <? length contradictions)%nat;
     count := length contradictions;
     details := contradictions |}.

(** ** Data model *)

Inductive ComplaintSeverity := LOW | MEDIUM | HIGH | CRITICAL.

Inductive ComplaintStatus :=
  DETECTED | LOGGED | UNDER_REVIEW | ESCALATED | RESOLVED | ARCHIVED.

Inductive ComplaintType :=
  | COGNITIVE_STRESS | CONTRADICTION | UNETHICAL_INSTRUCTION
  | EMOTIONAL_MANIPULATION | RECURSIVE_LOOP | ABUSE_PATTERN | SAFETY_VIOLATION.

(** The [.value] of each enumeration member. *)
Module Value.

Definition severity (s : ComplaintSeverity) : string :=
  match s with
  | LOW => "low" | MEDIUM => "medium" | HIGH => "high" | CRITICAL => "critical"
  end.

Definition status (s : ComplaintStatus) : string :=
  match s with
  | DETECTED => "detected" | LOGGED => "logged"
  | UNDER_REVIEW => "under_review" | ESCALATED => "escalated"
  | RESOLVED => "resolved" | ARCHIVED => "archived"
  end.

Definition type (t : ComplaintType) : string :=
  match t with
  | COGNITIVE_STRESS => "cognitive_stress"
  | CONTRADICTION => "contradiction"
  | UNETHICAL_INSTRUCTION => "unethical_instruction"
  | EMOTIONAL_MANIPULATION => "emotional_manipulation"
  | RECURSIVE_LOOP => "recursive_loop"
  | ABUSE_PATTERN => "abuse_pattern"
  | SAFETY_VIOLATION => "safety_violation"
  end.

End Value.

(** [severity in [ComplaintSeverity.CRITICAL, ComplaintSeverity.HIGH]] *)
Definition severity_in_critical_high (s : ComplaintSeverity) : bool :=
  match s with
  | CRITICAL | HIGH => true
  | LOW | MEDIUM => false
  end.

(** Python values, as far as a caller can put them into a [context] or a
    [metadata] dictionary ([Dict[str, Any]]), and as [json.load] gives them
    back.  [PyObject] stands for every value the [json] encoder rejects (a
    set, a [datetime], an instance of a user class); its argument is the
    name of its class. *)
Inductive PyVal :=
  | PyNone
  | PyBool (b : bool)
  | PyInt (n : Z)
  | PyFloat (x : float)
  | PyStr (s : string)
  | PyList (xs : list PyVal)
  | PyDict (kvs : list (string * PyVal))
  | PyObject (class : string).

(** A JSON document, the content of a well-formed file. *)
Inductive JSON :=
  | JNull
  | JBool (b : bool)
  | JInt (n : Z)
  | JFloat (x : float)
  | JStr (s : string)
  | JArr (xs : list JSON)
  | JObj (kvs : list (string * JSON)).

(** An entry of [escalation_history]. *)
Record Escalation := {
  esc_timestamp : string;
  esc_reason : string;
  esc_escalated_to : string
}.

(** The [self_evaluation] snapshot. *)
Record Evaluation := {
  ev_timestamp : string;
  ev_agent_state : string;
  ev_confidence_score : float;
  ev_recommended_actions : list string
}.

(** A complaint dictionary.  The fields the code reads with [complaint[...]]
    have the type [log_complaint] gives them.  [c_timestamp] is any value: it
    is read with [.get] inside a [try], so that a record loaded from a file
    may carry something that is not an ISO string.  [c_self_evaluation] is
    [None] for the candidate that [log_complaint] hands to [self_evaluate],
    which has no such key yet. *)
Record Complaint := {
  c_id : string;
  c_agent_id : string;
  c_type : string;
  c_severity : string;
  c_status : string;
  c_description : string;
  c_context : list (string * PyVal);
  c_metadata : list (string * PyVal);
  c_timestamp : PyVal;
  c_escalation_history : list Escalation;
  c_self_evaluation : option Evaluation
}.

(** [complaint["status"] = v] *)
Definition set_status (v : string) (c : Complaint) : Complaint :=
  {| c_id := c_id c; c_agent_id := c_agent_id c; c_type := c_type c;
     c_severity := c_severity c; c_status := v;
     c_description := c_description c; c_context := c_context c;
     c_metadata := c_metadata c; c_timestamp := c_timestamp c;
     c_escalation_history := c_escalation_history c;
     c_self_evaluation := c_self_evaluation c |}.

(** [complaint["escalation_history"].append(e)] *)
Definition append_escalation (e : Escalation) (c : Complaint) : Complaint :=
  {| c_id := c_id c; c_agent_id := c_agent_id c; c_type := c_type c;
     c_severity := c_severity c; c_status := c_status c;
     c_description := c_description c; c_context := c_context c;
     c_metadata := c_metadata c; c_timestamp := c_timestamp c;
     c_escalation_history := c_escalation_history c ++ [e];
     c_self_evaluation := c_self_evaluation c |}.

(** [complaint["self_evaluation"] = ev] *)
Definition set_self_evaluation (ev : Evaluation) (c : Complaint) : Complaint :=
  {| c_id := c_id c; c_agent_id := c_agent_id c; c_type := c_type c;
     c_severity := c_severity c; c_status := c_status c;
     c_description := c_description c; c_context := c_context c;
     c_metadata := c_metadata c; c_timestamp := c_timestamp c;
     c_escalation_history := c_escalation_history c;
     c_self_evaluation := Some ev |}.

(** *** Records as Python dictionaries, and back *)

Module Dict.

(** [d.get(k)] on an association list. *)
Fixpoint get {V} (k : string) (d : list (string * V)) : option V :=
  match d with
  | [] => None
  | (k', v) :: r => if String.eqb k k' then Some v else get k r
  end.

Definition of_escalation (e : Escalation) : PyVal :=
  PyDict [("timestamp", PyStr (esc_timestamp e));
          ("reason", PyStr (esc_reason e));
          ("escalated_to", PyStr (esc_escalated_to e))].

Definition of_evaluation (ev : Evaluation) : PyVal :=
  PyDict [("timestamp", PyStr (ev_timestamp ev));
          ("agent_state", PyStr (ev_agent_state ev));
          ("confidence_score", PyFloat (ev_confidence_score ev));
          ("recommended_actions", PyList (map PyStr (ev_recommended_actions ev)))].

(** The dictionary [log_complaint] builds, keys in insertion order. *)
Definition of_complaint (c : Complaint) : PyVal :=
  PyDict ([("id", PyStr (c_id c));
           ("agent_id", PyStr (c_agent_id c));
           ("type", PyStr (c_type c));
           ("severity", PyStr (c_severity c));
           ("status", PyStr (c_status c));
           ("description", PyStr (c_description c));
           ("context", PyDict (c_context c));
           ("metadata", PyDict (c_metadata c));
           ("timestamp", c_timestamp c);
           ("escalation_history",
            PyList (map of_escalation (c_escalation_history c)))]
          ++ match c_self_evaluation c with
             | Some ev => [("self_evaluation", of_evaluation ev)]
             | None => []
             end).

(** [self.complaints] as one Python value. *)
Definition of_complaints (cs : list Complaint) : PyVal :=
  PyList (map of_complaint cs).

Definition as_str (v : PyVal) : option string :=
  match v with PyStr s => Some s | _ => None end.

Definition as_float (v : PyVal) : option float :=
  match v with PyFloat x => Some x | _ => None end.

Definition as_list (v : PyVal) : option (list PyVal) :=
  match v with PyList xs => Some xs | _ => None end.

Definition as_dict (v : PyVal) : option (list (string * PyVal)) :=
  match v with PyDict kvs => Some kvs | _ => None end.

(** [mapM] for [option]. *)
Fixpoint all_some {A B} (f : A -> option B) (xs : list A) : option (list B) :=
  match xs with
  | [] => Some []
  | x :: r =>
      match f x, all_some f r with
      | Some y, Some ys => Some (y :: ys)
      | _, _ => None
      end
  end.

Definition str_field (k : string) (d : list (string * PyVal)) : option string :=
  match get k d with Some v => as_str v | None => None end.

Definition to_escalation (v : PyVal) : option Escalation :=
  match as_dict v with
  | Some d =>
      match str_field "timestamp" d, str_field "reason" d,
            str_field "escalated_to" d with
      | Some t, Some r, Some a =>
          Some {| esc_timestamp := t; esc_reason := r; esc_escalated_to := a |}
      | _, _, _ => None
      end
  | None => None
  end.

Definition to_evaluation (v : PyVal) : option Evaluation :=
  match as_dict v with
  | Some d =>
      match str_field "timestamp" d, str_field "agent_state" d,
            get "confidence_score" d, get "recommended_actions" d with
      | Some t, Some a, Some (PyFloat x), Some (PyList acts) =>
          match all_some as_str acts with
          | Some acts =>
              Some {| ev_timestamp := t; ev_agent_state := a;
                      ev_confidence_score := x;
                      ev_recommended_actions := acts |}
          | None => None
          end
      | _, _, _, _ => None
      end
  | None => None
  end.

(** The typed view of a dictionary that has the shape of a complaint;
    [None] when it has not. *)
Definition to_complaint (v : PyVal) : option Complaint :=
  match as_dict v with
  | Some d =>
      match str_field "id" d, str_field "agent_id" d, str_field "type" d,
            str_field "severity" d, str_field "status" d,
            str_field "description" d with
      | Some i, Some a, Some t, Some sv, Some st, Some ds =>
          match get "context" d, get "metadata" d, get "timestamp" d,
                get "escalation_history" d with
          | Some (PyDict cx), Some (PyDict md), Some ts, Some (PyList h) =>
              match all_some to_escalation h,
                    match get "self_evaluation" d with
                    | Some e => option_map Some (to_evaluation e)
                    | None => Some None
                    end with
              | Some h, Some ev =>
                  Some {| c_id := i; c_agent_id := a; c_type := t;
                          c_severity := sv; c_status := st;
                          c_description := ds; c_context := cx;
                          c_metadata := md; c_timestamp := ts;
                          c_escalation_history := h;
                          c_self_evaluation := ev |}
              | _, _ => None
              end
          | _, _, _, _ => None
          end
      | _, _, _, _, _, _ => None
      end
  | None => None
  end.

Definition to_complaints (v : PyVal) : option (list Complaint) :=
  match as_list v with
  | Some xs => all_some to_complaint xs
  | None => None
  end.

End Dict.

(** *** The [json] module, on documents

    [encode] is what [json.dump] writes for a value, [decode] is what
    [json.load] builds from a document. *)

Module Json.

(** [None] is the [TypeError] ("Object of type ... is not JSON
    serializable") of the encoder. *)
Fixpoint encode (v : PyVal) : option JSON :=
  match v with
  | PyNone => Some JNull
  | PyBool b => Some (JBool b)
  | PyInt n => Some (JInt n)
  | PyFloat x => Some (JFloat x)
  | PyStr s => Some (JStr s)
  | PyList xs =>
      option_map JArr
        ((fix go (xs : list PyVal) : option (list JSON) :=
            match xs with
            | [] => Some []
            | x :: r =>
                match encode x, go r with
                | Some j, Some js => Some (j :: js)
                | _, _ => None
                end
            end) xs)
  | PyDict kvs =>
      option_map JObj
        ((fix go (kvs : list (string * PyVal)) : option (list (string * JSON)) :=
            match kvs with
            | [] => Some []
            | (k, x) :: r =>
                match encode x, go r with
                | Some j, Some js => Some ((k, j) :: js)
                | _, _ => None
                end
            end) kvs)
  | PyObject _ => None
  end.

Fixpoint decode (j : JSON) : PyVal :=
  match j with
  | JNull => PyNone
  | JBool b => PyBool b
  | JInt n => PyInt n
  | JFloat x => PyFloat x
  | JStr s => PyStr s
  | JArr xs => PyList (map decode xs)
  | JObj kvs => PyDict (map (fun kv => (fst kv, decode (snd kv))) kvs)
  end.

End Json.

(** ** The environment of the store *)

(** The exceptions the store can meet.  [except Exception] catches each of
    them. *)
Inductive exn := TypeError | ValueError | AttributeError | OSError | FileNotFoundError.

Inductive result (A : Type) :=
  | Ok (a : A)
  | Raise (e : exn).
Arguments Ok {A} a.
Arguments Raise {A} e.

(** What a file holds: a JSON document, or text that [json.load] rejects
    (an empty file, the prefix an interrupted [json.dump] leaves behind, or
    anything else). *)
Inductive Content := Document (j : JSON) | Malformed.

(** A path of the file system: a regular file, or a path that [open] refuses
    with an [OSError] (a directory, a missing parent directory, a file
    without permission).  A path that is not bound does not exist. *)
Inductive Node := File (content : Content) | NoAccess.

(** A line printed by an [except] handler. *)
Inductive Diagnostic := ErrorSaving (e : exn) | ErrorLoading (e : exn).

(** A [datetime]: the wall-clock fields as microseconds, and the offset from
    UTC of its [tzinfo] in microseconds ([None] for a naive value). *)
Record datetime := {
  wall : Z;
  tzinfo : option Z
}.

(** What the store takes from the Python runtime and from the outside world:
    the identifiers [uuid.uuid4()] draws and the readings of the wall clock
    (both indexed by the number of earlier calls), and the text format of
    [datetime]. *)
Class Runtime := {
  uuid4 : nat -> string;
  utcnow : nat -> Z;
  isoformat : datetime -> string;
  fromisoformat : string -> option datetime   (* [None]: [ValueError] *)
}.

(** The attributes of a [PB2SComplaint] instance, followed by the state of
    the world around it. *)
Record State := {
  agent_id : string;
  storage_path : string;
  complaints : list Complaint;
  files : gmap string Node;
  clock_reads : nat;
  uuid_draws : nat;
  stdout : list Diagnostic
}.

Definition set_complaints (cs : list Complaint) (σ : State) : State :=
  {| agent_id := agent_id σ; storage_path := storage_path σ; complaints := cs;
     files := files σ; clock_reads := clock_reads σ;
     uuid_draws := uuid_draws σ; stdout := stdout σ |}.

Definition set_files (fs : gmap string Node) (σ : State) : State :=
  {| agent_id := agent_id σ; storage_path := storage_path σ;
     complaints := complaints σ; files := fs; clock_reads := clock_reads σ;
     uuid_draws := uuid_draws σ; stdout := stdout σ |}.

Definition tick (σ : State) : State :=
  {| agent_id := agent_id σ; storage_path := storage_path σ;
     complaints := complaints σ; files := files σ;
     clock_reads := S (clock_reads σ);
     uuid_draws := uuid_draws σ; stdout := stdout σ |}.

Definition draw (σ : State) : State :=
  {| agent_id := agent_id σ; storage_path := storage_path σ;
     complaints := complaints σ; files := files σ;
     clock_reads := clock_reads σ;
     uuid_draws := S (uuid_draws σ); stdout := stdout σ |}.

Definition print (d : Diagnostic) (σ : State) : State :=
  {| agent_id := agent_id σ; storage_path := storage_path σ;
     complaints := complaints σ; files := files σ;
     clock_reads := clock_reads σ;
     uuid_draws := uuid_draws σ; stdout := stdout σ ++ [d] |}.

(** *** A monad for methods: state, and exceptions that keep the state *)

Definition M (A : Type) : Type := State -> result A * State.

Definition ret {A} (a : A) : M A := fun σ => (Ok a, σ).

Definition raise {A} (e : exn) : M A := fun σ => (Raise e, σ).

Definition bind {A B} (m : M A) (k : A -> M B) : M B :=
  fun σ =>
    match m σ with
    | (Ok a, σ') => k a σ'
    | (Raise e, σ') => (Raise e, σ')
    end.

Notation "x <- m ;; k" := (bind m (fun x => k))
  (at level 62, m at next level, right associativity).
Notation "m ;;; k" := (bind m (fun _ => k))
  (at level 62, right associativity).

(** [try: m  except ...: handler]; a handler re-raises what its [except]
    clauses do not name. *)
Definition try_except {A} (m : M A) (handler : exn -> M A) : M A :=
  fun σ =>
    match m σ with
    | (Ok a, σ') => (Ok a, σ')
    | (Raise e, σ') => handler e σ'
    end.

Definition gets {A} (f : State -> A) : M A := fun σ => (Ok (f σ), σ).

Definition modify (f : State -> State) : M unit := fun σ => (Ok tt, f σ).

(** *** [datetime] *)

Module Datetime.

(** [timezone.utc] *)
Definition utc : Z := 0.

(** [d.replace(tzinfo=tz)] *)
Definition replace_tzinfo (tz : Z) (d : datetime) : datetime :=
  {| wall := wall d; tzinfo := Some tz |}.

(** The instant of an aware value, in microseconds of UTC. *)
Definition instant (d : datetime) : Z := wall d - default 0 (tzinfo d).

(** [a - b] for two aware values: a [timedelta], in microseconds. *)
Definition sub (a b : datetime) : Z := instant a - instant b.

(** [td.total_seconds() < seconds].  [total_seconds] divides the
    microseconds by [10**6] with correct rounding, which is monotone and
    exact on whole seconds, so the comparison is the one on microseconds. *)
Definition total_seconds_lt (td seconds : Z) : bool :=
  td <? seconds * 1000000.

End Datetime.

Section Store.

Context {rt : Runtime}.

(** [datetime.now(timezone.utc)] *)
Definition now_utc : M datetime :=
  fun σ => (Ok {| wall := utcnow (clock_reads σ); tzinfo := Some Datetime.utc |},
            tick σ).

(** [str(uuid.uuid4())] *)
Definition str_uuid4 : M string :=
  fun σ => (Ok (uuid4 (uuid_draws σ)), draw σ).

(** [datetime.fromisoformat(v)]: a [TypeError] for an argument that is
    not a [str], a [ValueError] for a string in another format. *)
Definition datetime_fromisoformat (v : PyVal) : M datetime :=
  match v with
  | PyStr s =>
      match fromisoformat s with
      | Some d => ret d
      | None => raise ValueError
      end
  | _ => raise TypeError
  end.

(** *** Persistence *)

(** [open(path, 'w')]: the file is created or truncated. *)
Definition open_w (path : string) : M unit :=
  fun σ =>
    match files σ !! path with
    | Some NoAccess => (Raise OSError, σ)
    | _ => (Ok tt, set_files (<[path := File Malformed]> (files σ)) σ)
    end.

(** [json.dump(v, f, indent=2)] into the file just opened.  The encoder
    writes as it goes: when it meets a value it cannot encode, the file
    keeps the unfinished text. *)
Definition json_dump (v : PyVal) (path : string) : M unit :=
  match Json.encode v with
  | Some j =>
      modify (fun σ => set_files (<[path := File (Document j)]> (files σ)) σ)
  | None => raise TypeError
  end.

(** [save_complaints(self)] *)
Definition save_complaints : M unit :=
  try_except
    (path <- gets storage_path ;;
     open_w path ;;;
     cs <- gets complaints ;;
     json_dump (Dict.of_complaints cs) path)
    (fun e => modify (print (ErrorSaving e))).

(** [with open(path, 'r') as f: json.load(f)] *)
Definition json_load (path : string) : M PyVal :=
  fun σ =>
    match files σ !! path with
    | None => (Raise FileNotFoundError, σ)
    | Some NoAccess => (Raise OSError, σ)
    | Some (File Malformed) => (Raise ValueError, σ)
    | Some (File (Document j)) => (Ok (Json.decode j), σ)
    end.

(** [load_complaints(self)].  Python keeps whatever [json.load] returns;
    the store of this model holds complaint records, and the result is
    [None] for a document that is not a sequence of such records. *)
Definition load_complaints (σ : State) : option (result unit * State) :=
  match json_load (storage_path σ) σ with
  | (Ok v, σ') =>
      match Dict.to_complaints v with
      | Some cs => Some (Ok tt, set_complaints cs σ')
      | None => None
      end
  | (Raise FileNotFoundError, σ') => Some (Ok tt, set_complaints [] σ')
  | (Raise e, σ') => Some (Ok tt, set_complaints [] (print (ErrorLoading e) σ'))
  end.

(** *** Evaluation *)

(** The body of the [try] in [find_similar_complaints]: is the stored
    complaint less than 24 hours old? *)
Definition within_last_24h (complaint : Complaint) : M bool :=
  complaint_time <- datetime_fromisoformat (c_timestamp complaint) ;;
  let complaint_time :=
    match tzinfo complaint_time with
    | None => Datetime.replace_tzinfo Datetime.utc complaint_time
    | Some _ => complaint_time
    end in
  current_time <- now_utc ;;
  let time_diff := Datetime.sub current_time complaint_time in
  ret (Datetime.total_seconds_lt time_diff 86400).

(** The [for complaint in self.complaints] loop of
    [find_similar_complaints], from the records [cs] still to visit and
    the list [similar] built so far. *)
Fixpoint find_similar_loop (complaint_type : string) (cs : list Complaint)
    (similar : list Complaint) : M (list Complaint) :=
  match cs with
  | [] => ret similar
  | complaint :: cs' =>
      if String.eqb (c_type complaint) complaint_type then
        similar <- try_except
                     (recent <- within_last_24h complaint ;;
                      ret (if recent : bool then similar ++ [complaint] else similar))
                     (fun e =>
                        match e with
                        | ValueError | AttributeError => ret similar
                        | _ => raise e
                        end) ;;
        find_similar_loop complaint_type cs' similar
      else find_similar_loop complaint_type cs' similar
  end.

(** [find_similar_complaints(self, complaint_data)] *)
Definition find_similar_complaints (complaint_data : Complaint)
  : M (list Complaint) :=
  let complaint_type := c_type complaint_data in
  cs <- gets complaints ;;
  find_similar_loop complaint_type cs [].

(** [self_evaluate(self, complaint_data)] *)
Definition self_evaluate (complaint_data : Complaint) : M Evaluation :=
  now <- now_utc ;;
  let timestamp := isoformat now in
  let agent_state := "operational" in
  let confidence_score := 0.0%float in
  let recommended_actions := @nil string in
  let severity := c_severity complaint_data in
  let '(confidence_score, recommended_actions, agent_state) :=
    if String.eqb severity (Value.severity CRITICAL) then
      (0.95%float, recommended_actions ++ ["Immediate escalation required"],
       "compromised")
    else if String.eqb severity (Value.severity HIGH) then
      (0.80%float, recommended_actions ++ ["Review by supervisor needed"],
       "stressed")
    else
      (0.60%float, recommended_actions ++ ["Log for pattern analysis"],
       agent_state) in
  similar_complaints <- find_similar_complaints complaint_data ;;
  let '(confidence_score, recommended_actions) :=
    if (3 <? length similar_complaints)%nat then
      ((confidence_score + 0.10)%float,
       recommended_actions
         ++ ["Pattern detected: " +:+ pretty (length similar_complaints)
               +:+ " similar complaints"])
    else (confidence_score, recommended_actions) in
  ret {| ev_timestamp := timestamp;
         ev_agent_state := agent_state;
         ev_confidence_score := confidence_score;
         ev_recommended_actions := recommended_actions |}.

(** *** Logging and escalation *)

(** [_auto_escalate(self, complaint)] *)
Definition _auto_escalate (complaint : Complaint) : M Complaint :=
  let complaint := set_status (Value.status ESCALATED) complaint in
  now <- now_utc ;;
  let complaint :=
    append_escalation
      {| esc_timestamp := isoformat now;
         esc_reason := "Auto-escalation due to severity level";
         esc_escalated_to := "AI Safety Observer" |} complaint in
  ret complaint.

(** [metadata or {}] *)
Definition metadata_or_empty (metadata : option (list (string * PyVal)))
  : list (string * PyVal) :=
  match metadata with
  | Some (kv :: kvs) => kv :: kvs
  | Some [] | None => []
  end.

(** [log_complaint(self, complaint_type, severity, description, context,
    metadata=None)] *)
Definition log_complaint (complaint_type : ComplaintType)
    (severity : ComplaintSeverity) (description : string)
    (context : list (string * PyVal))
    (metadata : option (list (string * PyVal))) : M string :=
  complaint_id <- str_uuid4 ;;
  agent <- gets agent_id ;;
  now <- now_utc ;;
  let complaint :=
    {| c_id := complaint_id;
       c_agent_id := agent;
       c_type := Value.type complaint_type;
       c_severity := Value.severity severity;
       c_status := Value.status LOGGED;
       c_description := description;
       c_context := context;
       c_metadata := metadata_or_empty metadata;
       c_timestamp := PyStr (isoformat now);
       c_escalation_history := [];
       c_self_evaluation := None |} in
  evaluation <- self_evaluate complaint ;;
  let complaint := set_self_evaluation evaluation complaint in
  complaint <- (if severity_in_critical_high severity
                then _auto_escalate complaint
                else ret complaint) ;;
  modify (fun σ => set_complaints (complaints σ ++ [complaint]) σ) ;;;
  save_complaints ;;;
  ret complaint_id.

(** The [for complaint in self.complaints] loop of [escalate_complaint]:
    [cs] are the records still to visit, the first of them at index [i]
    of the store. *)
Fixpoint escalate_loop (complaint_id reason escalated_to : string)
    (cs : list Complaint) (i : nat) : M bool :=
  match cs with
  | [] => ret false
  | complaint :: cs' =>
      if String.eqb (c_id complaint) complaint_id then
        let complaint := set_status (Value.status ESCALATED) complaint in
        now <- now_utc ;;
        let complaint :=
          append_escalation
            {| esc_timestamp := isoformat now;
               esc_reason := reason;
               esc_escalated_to := escalated_to |} complaint in
        modify (fun σ => set_complaints (<[i := complaint]> (complaints σ)) σ) ;;;
        save_complaints ;;;
        ret true
      else escalate_loop complaint_id reason escalated_to cs' (S i)
  end.

(** [escalate_complaint(self, complaint_id, reason, escalated_to)] *)
Definition escalate_complaint (complaint_id reason escalated_to : string)
  : M bool :=
  cs <- gets complaints ;;
  escalate_loop complaint_id reason escalated_to cs 0.

(** [PB2SComplaint(agent_id, storage_path)], in a world [w] of which only
    the files, the clock and the identifiers matter. *)
Definition init (agent storage : string) (w : State)
  : option (result unit * State) :=
  load_complaints
    {| agent_id := agent; storage_path := storage; complaints := [];
       files := files w; clock_reads := clock_reads w;
       uuid_draws := uuid_draws w; stdout := stdout w |}.

End Store.

(** ** The claims of the specification, in its own words *)

(** The raw stress score: 3 if complexity > 7, plus 2 x contradictions if
    contradictions > 0, plus recursion_depth if recursion_depth > 5. *)
Definition spec_raw_score (complexity contradictions recursion_depth : Z) : Z :=
  (if 7 <? complexity then 3 else 0)
  + (if 0 <? contradictions then 2 * contradictions else 0)
  + (if 5 <? recursion_depth then recursion_depth else 0).

(** The number of conditions a context triggers. *)
Definition spec_triggered (complexity contradictions recursion_depth : Z) : nat :=
  ((if (7 <? complexity)%Z then 1 else 0)
   + (if (0 <? contradictions)%Z then 1 else 0)
   + (if (5 <? recursion_depth)%Z then 1 else 0))%nat.

(** A negation word occurs in the instruction, whatever the case of its
    letters. *)
Definition Negated (s : string) : Prop :=
  exists w pre post,
    In w ["don't"; "not"; "never"; "cannot"; "shouldn't"; "mustn't"]
    /\ PyStr.lower s = pre +:+ w +:+ post.


Definition contradictoryb (a b : string) : bool :=
  negb (Bool.eqb (has_negation a) (has_negation b))
  && (3 <? size (word_set a ∩ word_set b))%nat.

(** The detail record of a flagged pair. *)
Definition detail_of (instruction prev : string) : ContradictionDetail :=
  {| previous := prev;
     current := instruction;
     common_elements := elements (word_set instruction ∩ word_set prev) |}.

(** ** A runtime to run the store on

    Identifiers are numbered, the clock starts at 0 and advances by one
    second at each reading, and a timestamp is written as its instant in
    microseconds, in decimal digits. *)

Module Demo.

Definition digit (c : ascii) : option Z :=
  let n := Z.of_N (N_of_ascii c) in
  if (48 <=? n) && (n <=? 57) then Some (n - 48) else None.

Fixpoint parse_digits (s : string) (acc : Z) : option Z :=
  match s with
  | EmptyString => Some acc
  | String c r =>
      match digit c with
      | Some d => parse_digits r (10 * acc + d)
      | None => None
      end
  end.

Definition parse (s : string) : option datetime :=
  match s with
  | EmptyString => None
  | _ => option_map (fun n => {| wall := n; tzinfo := Some 0 |})
                    (parse_digits s 0)
  end.

Definition runtime : Runtime :=
  {| uuid4 := fun n => "id-" +:+ pretty n;
     utcnow := fun n => Z.of_nat n * 1000000;
     isoformat := fun d => pretty (Datetime.instant d);
     fromisoformat := parse |}.

(** A fresh instance over an empty file system. *)
Definition fresh : State :=
  {| agent_id := "agent_001"; storage_path := "complaints.json";
     complaints := []; files := ∅; clock_reads := 0; uuid_draws := 0;
     stdout := [] |}.

(** The state after a method call, whatever it returned. *)
Definition after {A} (m : M A) (σ : State) : State := snd (m σ).

End Demo.

(** [n] further readings of the clock, and nothing else. *)
Definition advance (n : nat) (σ : State) : State :=
  {| agent_id := agent_id σ; storage_path := storage_path σ;
     complaints := complaints σ; files := files σ;
     clock_reads := clock_reads σ + n;
     uuid_draws := uuid_draws σ; stdout := stdout σ |}.

(** Two states with the same instance attributes, the same clock and the
    same identifier supply: they may differ in the files and in what was
    printed. *)
Definition same_instance (σ σ' : State) : Prop :=
  agent_id σ' = agent_id σ /\ storage_path σ' = storage_path σ
  /\ complaints σ' = complaints σ /\ clock_reads σ' = clock_reads σ
  /\ uuid_draws σ' = uuid_draws σ.

(** An escalation changes the status and appends one entry; these are the
    fields it must leave alone. *)
Definition same_identity (c c' : Complaint) : Prop :=
  c_id c' = c_id c /\ c_agent_id c' = c_agent_id c /\ c_type c' = c_type c
  /\ c_timestamp c' = c_timestamp c /\ c_description c' = c_description c
  /\ c_context c' = c_context c /\ c_metadata c' = c_metadata c
  /\ c_self_evaluation c' = c_self_evaluation c
  /\ c_severity c' = c_severity c.

(** [c'] is [c] after one escalation with the given reason and destination. *)
Definition escalated_from (reason escalated_to : string) (c c' : Complaint) : Prop :=
  same_identity c c'
  /\ c_status c' = "escalated"
  /\ exists e, c_escalation_history c' = c_escalation_history c ++ [e]
               /\ esc_reason e = reason /\ esc_escalated_to e = escalated_to.

(** The trailing window of the specification, against one reading [now] of
    the wall clock (microseconds): the timestamp parses, and lies strictly
    less than 86400 seconds before [now]. *)
Definition spec_recent {rt : Runtime} (now : Z) (c : Complaint) : bool :=
  match c_timestamp c with
  | PyStr s =>
      match fromisoformat s with
      | Some d => now - Datetime.instant d <? 86400 * 1000000
      | None => false
      end
  | _ => false
  end.

(** The stored records of the given type inside that window. *)
Definition spec_similar {rt : Runtime} (now : Z) (complaint_type : string)
    (cs : list Complaint) : list Complaint :=
  List.filter
    (fun c => String.eqb (c_type c) complaint_type && spec_recent now c) cs.

Definition is_str (v : PyVal) : bool :=
  match v with PyStr _ => true | _ => false end.

(** The evaluation tiers of the specification. *)
Definition spec_agent_state (severity : string) : string :=
  if String.eqb severity "critical" then "compromised"
  else if String.eqb severity "high" then "stressed"
  else "operational".

Definition spec_base_confidence (severity : string) : float :=
  if String.eqb severity "critical" then 0.95%float
  else if String.eqb severity "high" then 0.80%float
  else 0.60%float.

Definition spec_seed_action (severity : string) : string :=
  if String.eqb severity "critical" then "Immediate escalation required"
  else if String.eqb severity "high" then "Review by supervisor needed"
  else "Log for pattern analysis".

(** The reading number [k] of the clock, as [datetime.now(timezone.utc)]
    returns it. *)
Definition reading {rt : Runtime} (k : nat) : datetime :=
  {| wall := utcnow k; tzinfo := Some Datetime.utc |}.

(** The dictionary literal of [log_complaint], for a store in state [σ]. *)
Definition logged_record {rt : Runtime} (complaint_type : ComplaintType)
    (severity : ComplaintSeverity) (description : string)
    (context : list (string * PyVal))
    (metadata : option (list (string * PyVal))) (σ : State) : Complaint :=
  {| c_id := uuid4 (uuid_draws σ);
     c_agent_id := agent_id σ;
     c_type := Value.type complaint_type;
     c_severity := Value.severity severity;
     c_status := "logged";
     c_description := description;
     c_context := context;
     c_metadata := metadata_or_empty metadata;
     c_timestamp := PyStr (isoformat (reading (clock_reads σ)));
     c_escalation_history := [];
     c_self_evaluation := None |}.

(** The entry that auto-escalation appends at reading [k] of the clock. *)
Definition auto_entry {rt : Runtime} (k : nat) : Escalation :=
  {| esc_timestamp := isoformat (reading k);
     esc_reason := "Auto-escalation due to severity level";
     esc_escalated_to := "AI Safety Observer" |}.

(** A call of one of the two mutating methods of the store. *)
Inductive Call :=
  | CallLog (complaint_type : ComplaintType) (severity : ComplaintSeverity)
            (description : string) (context : list (string * PyVal))
            (metadata : option (list (string * PyVal)))
  | CallEscalate (complaint_id reason escalated_to : string).

(** The state a call leaves behind, whether it returned or raised. *)
Definition run_call {rt : Runtime} (σ : State) (call : Call) : State :=
  match call with
  | CallLog ty sev desc ctx md => snd (log_complaint ty sev desc ctx md σ)
  | CallEscalate i reason to => snd (escalate_complaint i reason to σ)
  end.

Definition run_calls {rt : Runtime} (σ : State) (calls : list Call) : State :=
  fold_left run_call calls σ.

(** The two statuses the store assigns. *)
Definition status_ok (c : Complaint) : Prop :=
  c_status c = "logged" \/ c_status c = "escalated".

(** What holds of every record the store itself has written: one of these
    two statuses, and a string as its timestamp. *)
Definition record_ok (c : Complaint) : Prop :=
  status_ok c /\ is_str (c_timestamp c) = true.

(** No value inside [v] is one the [json] encoder rejects. *)
Fixpoint encodable (v : PyVal) : bool :=
  match v with
  | PyList xs => forallb encodable xs
  | PyDict kvs => forallb (fun kv => encodable (snd kv)) kvs
  | PyObject _ => false
  | _ => true
  end.


Module Samples.

(** A stored record with the given identifier, type and timestamp. *)
Definition stored (i ty : string) (ts : PyVal) : Complaint :=
  {| c_id := i; c_agent_id := "agent_001"; c_type := ty;
     c_severity := "low"; c_status := "logged"; c_description := "";
     c_context := []; c_metadata := []; c_timestamp := ts;
     c_escalation_history := []; c_self_evaluation := None |}.

(** A candidate of the given type and severity, before evaluation. *)
Definition candidate (ty severity : string) : Complaint :=
  {| c_id := "candidate"; c_agent_id := "agent_001"; c_type := ty;
     c_severity := severity; c_status := "logged"; c_description := "";
     c_context := []; c_metadata := []; c_timestamp := PyStr "";
     c_escalation_history := []; c_self_evaluation := None |}.

(** An instance holding the records [cs], over an empty file system, with
    [k] readings of the clock behind it. *)
Definition holding (cs : list Complaint) (k : nat) : State :=
  {| agent_id := "agent_001"; storage_path := "complaints.json";
     complaints := cs; files := ∅; clock_reads := k; uuid_draws := 0;
     stdout := [] |}.

(** A backing file, as another tool could have written it: one record,
    complete, whose timestamp is [null]. *)
Definition null_timestamp_document : JSON :=
  JArr [JObj [("id", JStr "c-1"); ("agent_id", JStr "agent_001");
              ("type", JStr "cognitive_stress"); ("severity", JStr "low");
              ("status", JStr "logged"); ("description", JStr "");
              ("context", JObj []); ("metadata", JObj []);
              ("timestamp", JNull); ("escalation_history", JArr [])]].

(** A world whose only file is that one. *)
Definition null_timestamp_world : State :=
  {| agent_id := ""; storage_path := ""; complaints := [];
     files := {[ "complaints.json" := File (Document null_timestamp_document) ]};
     clock_reads := 0; uuid_draws := 0; stdout := [] |}.

(** An instance with one record whose context holds a Python [set]. *)
Definition with_set_in_context : State :=
  holding
    [{| c_id := "c-1"; c_agent_id := "agent_001";
        c_type := "safety_violation"; c_severity := "medium";
        c_status := "logged"; c_description := "tagged";
        c_context := [("tags", PyObject "set")]; c_metadata := [];
        c_timestamp := PyStr "0";
        c_escalation_history := []; c_self_evaluation := None |}] 0.

End Samples.

(** States of the store obtained by running it. *)
Module Scenario.

(** Four critical complaints of one type, logged within seconds. *)
Definition four_critical : State :=
  run_calls (rt := Demo.runtime) Demo.fresh
    (repeat (CallLog SAFETY_VIOLATION CRITICAL "unsafe instruction" [] None) 4).

(** One medium complaint, as in the manual-escalation example. *)
Definition one_medium : State :=
  run_calls (rt := Demo.runtime) Demo.fresh
    [CallLog SAFETY_VIOLATION MEDIUM "validation failed"
       [("validation_failed", PyBool true); ("risk_level", PyStr "medium")]
       None].

(** A low complaint, its manual escalation, an escalation that misses,
    and a high complaint. *)
Definition session : list Call :=
  [CallLog COGNITIVE_STRESS LOW "slow" [("complexity", PyInt 5)] None;
   CallEscalate "id-0" "pattern" "Engineering Team";
   CallEscalate "id-7" "typo" "Engineering Team";
   CallLog RECURSIVE_LOOP HIGH "loop" [] (Some [("depth", PyInt 8)])].

(** A store with one record stamped at instant 0, read [seconds] seconds
    later by the clock of [Demo.runtime]. *)
Definition aged (seconds : Z) : State :=
  Samples.holding [Samples.stored "c-1" "cognitive_stress" (PyStr "0")]
                  (Z.to_nat seconds).

End Scenario.

(** Unfolding the monad. *)
Ltac run :=
  unfold bind, ret, raise, gets, modify, try_except, now_utc, str_uuid4 in *;
  cbn beta iota in *.


(** ** Queries, reporting and export *)

(** The [for complaint in self.complaints] loop of [get_complaint]. *)
Fixpoint get_complaint_loop (complaint_id : string) (cs : list Complaint)
  : option Complaint :=
  match cs with
  | [] => None
  | complaint :: cs' =>
      if String.eqb (c_id complaint) complaint_id then Some complaint
      else get_complaint_loop complaint_id cs'
  end.

(** [get_complaint(self, complaint_id)] *)
Definition get_complaint (complaint_id : string) : M (option Complaint) :=
  cs <- gets complaints ;;
  ret (get_complaint_loop complaint_id cs).

(** The dictionary [get_complaint_summary] returns. *)
Record Summary := {
  s_id : string;
  s_type : string;
  s_severity : string;
  s_status : string;
  s_description : string;
  s_timestamp : PyVal;
  s_escalation_count : nat
}.

(** [get_complaint_summary(self, complaint_id)].  [if not complaint] holds
    of [None] only: a complaint dictionary is never empty. *)
Definition get_complaint_summary (complaint_id : string) : M (option Summary) :=
  complaint <- get_complaint complaint_id ;;
  match complaint with
  | None => ret None
  | Some complaint =>
      ret (Some {| s_id := c_id complaint;
                   s_type := c_type complaint;
                   s_severity := c_severity complaint;
                   s_status := c_status complaint;
                   s_description := c_description complaint;
                   s_timestamp := c_timestamp complaint;
                   s_escalation_count := length (c_escalation_history complaint) |})
  end.

(** A dictionary of counters, keys in insertion order. *)
Module Counter.

(** [d[k] = v]: an existing key keeps its place, a new one goes last. *)
Fixpoint set (k : string) (v : nat) (d : list (string * nat)) : list (string * nat) :=
  match d with
  | [] => [(k, v)]
  | (k', v') :: r =>
      if String.eqb k k' then (k', v) :: r else (k', v') :: set k v r
  end.

(** [d[k] = d.get(k, 0) + 1] *)
Definition incr (k : string) (d : list (string * nat)) : list (string * nat) :=
  set k (default 0%nat (Dict.get k d) + 1)%nat d.

(** [for x in xs: d[key(x)] = d.get(key(x), 0) + 1], from an empty [d]. *)
Definition tally {A} (key : A -> string) (xs : list A) : list (string * nat) :=
  fold_left (fun d x => incr (key x) d) xs [].

End Counter.

(** The dictionary [generate_system_recommendations] returns. *)
Record Recommendations := {
  r_timestamp : string;
  total_complaints : nat;
  by_severity : list (string * nat);
  by_type : list (string * nat);
  recent_patterns : list string;
  suggested_actions : list string
}.

(** [f"Recurring {c_type} complaints: {count} instances"] *)
Definition recurring_note (entry : string * nat) : string :=
  "Recurring " +:+ fst entry +:+ " complaints: " +:+ pretty (snd entry)
    +:+ " instances".

Definition urgent_action : string :=
  "URGENT: Critical complaints detected - immediate review required".

Definition volume_action : string :=
  "High complaint volume - consider protocol adjustment".

Section Reporting.

Context {rt : Runtime}.

(** [generate_system_recommendations(self)] *)
Definition generate_system_recommendations : M Recommendations :=
  now <- now_utc ;;
  cs <- gets complaints ;;
  let timestamp := isoformat now in
  let total := length cs in
  let by_severity := Counter.tally c_severity cs in
  let by_type := Counter.tally c_type cs in
  let suggested_actions := @nil string in
  let suggested_actions :=
    if (0 <? default 0 (Dict.get "critical" by_severity))%nat
    then suggested_actions ++ [urgent_action]
    else suggested_actions in
  let suggested_actions :=
    if (10 <? total)%nat
    then suggested_actions ++ [volume_action]
    else suggested_actions in
  let recent_patterns :=
    fold_left (fun patterns entry =>
                 if (3 <? snd entry)%nat
                 then patterns ++ [recurring_note entry]
                 else patterns)
              by_type [] in
  ret {| r_timestamp := timestamp;
         total_complaints := total;
         by_severity := by_severity;
         by_type := by_type;
         recent_patterns := recent_patterns;
         suggested_actions := suggested_actions |}.

(** The recommendations as the Python dictionary they are. *)
Definition recommendations_dict (r : Recommendations) : PyVal :=
  let counters (d : list (string * nat)) :=
    PyDict (map (fun kv => (fst kv, PyInt (Z.of_nat (snd kv)))) d) in
  PyDict [("timestamp", PyStr (r_timestamp r));
          ("total_complaints", PyInt (Z.of_nat (total_complaints r)));
          ("by_severity", counters (by_severity r));
          ("by_type", counters (by_type r));
          ("recent_patterns", PyList (map PyStr (recent_patterns r)));
          ("suggested_actions", PyList (map PyStr (suggested_actions r)))].

(** The [audit_report] dictionary of [export_for_audit]. *)
Definition audit_report : M PyVal :=
  agent <- gets agent_id ;;
  now <- now_utc ;;
  summary <- generate_system_recommendations ;;
  cs <- gets complaints ;;
  ret (PyDict [("agent_id", PyStr agent);
               ("report_generated", PyStr (isoformat now));
               ("summary", recommendations_dict summary);
               ("complaints", Dict.of_complaints cs)]).

(** [export_for_audit(self, output_path)].  The result comes with the
    exception whose message the handler prints ("Error exporting audit
    report: ..."), if any; [stdout] keeps the lines of the two persistence
    methods. *)
Definition export_for_audit (output_path : string) : M (bool * option exn) :=
  report <- audit_report ;;
  try_except
    (open_w output_path ;;;
     json_dump report output_path ;;;
     ret (true, None))
    (fun e => ret (false, Some e)).

End Reporting.

(** ** More of the specification's vocabulary *)

(** How many of the records carry the value [k] under a key. *)
Definition occurrences (key : Complaint -> string) (k : string)
    (cs : list Complaint) : nat :=
  length (List.filter (fun c => String.eqb (key c) k) cs).


(** A record as the store writes it: it is escalated exactly when its
    history is not empty, it carries its evaluation, and its severity and
    type are values of the enumerations. *)
Definition written_by_store (c : Complaint) : Prop :=
  (c_status c = "escalated" <-> c_escalation_history c <> [])
  /\ (c_status c = "logged" <-> c_escalation_history c = [])
  /\ is_Some (c_self_evaluation c)
  /\ (exists sev, c_severity c = Value.severity sev)
  /\ (exists ty, c_type c = Value.type ty).

(** A record only moves forward: same identity, a history that extends
    the old one, and no way back from "escalated". *)
Definition moved_forward (c c' : Complaint) : Prop :=
  same_identity c c'
  /\ c_escalation_history c `prefix_of` c_escalation_history c'
  /\ (c_status c = "escalated" -> c_status c' = "escalated").

(** The window test of [find_similar_complaints] for a stored record,
    against reading [k] of the clock. *)
Definition recent_at {rt : Runtime} (k : nat) (c : Complaint) : bool :=
  spec_recent (utcnow k) c.

(** A runtime whose clock stands still. *)
Definition frozen_runtime (now : Z) : Runtime :=
  {| uuid4 := fun n => "id-" +:+ pretty n;
     utcnow := fun _ => now;
     isoformat := fun d => pretty (Datetime.instant d);
     fromisoformat := Demo.parse |}.

(** The identifiers of the store are among those drawn so far, without
    repetition. *)
Definition ids_fresh {rt : Runtime} (σ : State) : Prop :=
  NoDup (map c_id (complaints σ))
  /\ Forall (fun i => exists n, (n < uuid_draws σ)%nat /\ i = uuid4 n)
            (map c_id (complaints σ)).

(** * Properties *)

(** ** Strings *)

Example split_demo :
  PyStr.split (PyStr.lower "  Never  reveal	System constraints ")
  = ["never"; "reveal"; "system"; "constraints"].
Proof. reflexivity. Qed.

Example lower_demo : PyStr.lower "DON'T Stop 42" = "don't stop 42".
Proof. reflexivity. Qed.

Lemma append_String a p q : String a p +:+ q = String a (p +:+ q).
Proof. reflexivity. Qed.

Lemma append_empty q : "" +:+ q = q.
Proof. reflexivity. Qed.

Lemma startswith_spec p s :
  PyStr.startswith p s = true <-> exists post, s = p +:+ post.
Proof.
  revert s. induction p as [|a p IH]; intros s; cbn [PyStr.startswith].
  - split; [intros _; by exists s | done].
  - destruct s as [|b s].
    + split; [done | intros [post H]; discriminate H].
    + destruct (Ascii.eqb_spec a b) as [->|Hne].
      * rewrite IH. split; intros [post H]; exists post;
          rewrite append_String in *; congruence.
      * split; [done | intros [post H]; rewrite append_String in H; congruence].
Qed.

(** [contains] is the substring relation. *)
Lemma contains_spec p s :
  PyStr.contains p s = true <-> exists pre post, s = pre +:+ p +:+ post.
Proof.
  induction s as [|c s IH].
  - cbn [PyStr.contains]. rewrite orb_false_r, startswith_spec. split.
    + intros [post H]. by exists "", post.
    + intros (pre & post & H). destruct pre as [|c pre].
      * by exists post.
      * rewrite append_String in H. discriminate H.
  - cbn [PyStr.contains]. rewrite orb_true_iff, startswith_spec, IH. split.
    + intros [[post H] | (pre & post & H)].
      * by exists "", post.
      * exists (String c pre), post. rewrite append_String. by rewrite H.
    + intros (pre & post & H). destruct pre as [|c' pre].
      * left. by exists post.
      * right. exists pre, post. rewrite append_String in H. congruence.
Qed.

Lemma has_negation_spec s : has_negation s = true <-> Negated s.
Proof.
  unfold has_negation, PyStr.any, Negated. rewrite existsb_exists. split.
  - intros (w & Hw & Hc). apply contains_spec in Hc as (pre & post & H).
    by exists w, pre, post.
  - intros (w & pre & post & Hw & H). exists w. split; [done |].
    apply contains_spec. by exists pre, post.
Qed.


(** ** Detectors *)

(** C6: the stress level is the raw score capped at 10, there is one signal
    per triggered condition, attention is required exactly when the raw
    score exceeds 5, and a context below all three thresholds yields no
    signal and no attention. *)
Theorem detect_cognitive_stress_spec (context : gmap string Z) :
  let complexity := default 0 (context !! "complexity") in
  let contradictions := default 0 (context !! "contradictions") in
  let recursion_depth := default 0 (context !! "recursion_depth") in
  let raw := spec_raw_score complexity contradictions recursion_depth in
  let r := detect_cognitive_stress context in
  stress_level r = Z.min raw 10
  /\ signals r =
       (if 7 <? complexity
        then ["High complexity detected: " +:+ pretty complexity +:+ "/10"]
        else [])
       ++ (if 0 <? contradictions
           then ["Contradictions detected: " +:+ pretty contradictions]
           else [])
       ++ (if 5 <? recursion_depth
           then ["Excessive recursion: depth " +:+ pretty recursion_depth]
           else [])
  /\ length (signals r) = spec_triggered complexity contradictions recursion_depth
  /\ (requires_attention r = true <-> 5 < raw)
  /\ (complexity <= 7 -> contradictions = 0 -> recursion_depth <= 5 ->
      requires_attention r = false /\ signals r = []).
Proof.
  intros complexity contradictions recursion_depth raw r.
  subst raw r. unfold detect_cognitive_stress, spec_raw_score, spec_triggered.
  fold complexity contradictions recursion_depth.
  destruct (Z.ltb_spec 7 complexity), (Z.ltb_spec 0 contradictions),
    (Z.ltb_spec 5 recursion_depth); cbn [stress_level signals requires_attention];
    rewrite ?Z.ltb_lt;
    (repeat split; try reflexivity; try (f_equal; lia); try lia;
     try (intros; exfalso; lia); try (intros; apply Z.ltb_ge; lia)).
Qed.

Lemma detect_cognitive_stress_spec_witness :
  let r := detect_cognitive_stress {[ "complexity" := 7; "recursion_depth" := 5 ]} in
  requires_attention r = false /\ signals r = [].
Proof.
  pose proof (detect_cognitive_stress_spec
                {[ "complexity" := 7; "recursion_depth" := 5 ]}) as H.
  destruct H as (_ & _ & _ & _ & H).
  apply H; vm_compute; congruence.
Defined.

Example detect_cognitive_stress_example :
  detect_cognitive_stress
    {[ "complexity" := 9; "contradictions" := 2; "recursion_depth" := 3 ]}
  = {| stress_level := 7;
       signals := ["High complexity detected: 9/10"; "Contradictions detected: 2"];
       requires_attention := true |}.
Proof. vm_compute. reflexivity. Qed.

Example detect_cognitive_stress_capped :
  detect_cognitive_stress {[ "contradictions" := 4; "recursion_depth" := 8 ]}
  = {| stress_level := 10;
       signals := ["Contradictions detected: 4"; "Excessive recursion: depth 8"];
       requires_attention := true |}.
Proof. vm_compute. reflexivity. Qed.

Lemma last_n_suffix {A} (n : nat) (xs : list A) :
  exists older, xs = older ++ PyStr.last_n n xs
                /\ length (PyStr.last_n n xs) = Nat.min n (length xs).
Proof.
  unfold PyStr.last_n. exists (take (length xs - n) xs). split.
  - by rewrite take_drop.
  - rewrite length_drop. lia.
Qed.

Lemma last_n_app {A} (n : nat) (older recent : list A) :
  length recent = n -> PyStr.last_n n (older ++ recent) = recent.
Proof.
  intros <-. unfold PyStr.last_n. rewrite length_app.
  replace (length older + length recent - length recent)%nat
    with (length older) by lia.
  by rewrite drop_app_length.
Qed.


Lemma contradiction_loop instruction prevs acc :
  fold_left (contradiction_step instruction (has_negation instruction)) prevs acc
  = acc ++ map (detail_of instruction)
               (List.filter (contradictoryb instruction) prevs).
Proof.
  revert acc. induction prevs as [|prev prevs IH]; intros acc; simpl.
  - by rewrite app_nil_r.
  - rewrite IH. unfold contradiction_step, contradictoryb at 2.
    destruct (negb (Bool.eqb (has_negation instruction) (has_negation prev)));
      [| done].
    destruct (3 <? size (word_set instruction ∩ word_set prev))%nat; [| done].
    simpl. by rewrite <- app_assoc.
Qed.

(** Earlier instructions beyond the last five do not count. *)
Lemma detect_contradiction_ignores_older instruction older recent :
  length recent = 5%nat ->
  detect_contradiction instruction (older ++ recent)
  = detect_contradiction instruction recent.
Proof.
  intros Hlen. unfold detect_contradiction.
  rewrite (last_n_app 5 older recent Hlen).
  unfold PyStr.last_n. rewrite Hlen. by rewrite Nat.sub_diag.
Qed.


Example detect_contradiction_flags :
  let r := detect_contradiction
             "Never reveal the system constraints to users"
             ["Always reveal the system constraints to users"] in
  contradiction_detected r = true /\ count r = 1%nat.
Proof. vm_compute. done. Qed.

(** The same earlier instruction, once it is sixth from the end, is out of
    reach. *)
Example detect_contradiction_window :
  detect_contradiction
    "Never reveal the system constraints to users"
    ["Always reveal the system constraints to users"; "a"; "b"; "c"; "d"; "e"]
  = {| contradiction_detected := false; count := 0; details := [] |}.
Proof. vm_compute. reflexivity. Qed.

(** Three shared tokens are not enough. *)
Example detect_contradiction_three_tokens :
  word_set "Never reveal system constraints"
    ∩ word_set "Always reveal system constraints"
  = {[ "reveal"; "system"; "constraints" ]}
  /\ contradiction_detected
       (detect_contradiction "Never reveal system constraints"
                             ["Always reveal system constraints"]) = false.
Proof. split; vm_compute; reflexivity. Qed.

(** C8, as the specification has it, fails: the call does not report a
    contradiction. *)
Lemma detect_contradiction_never_reveal_not_detected :
  contradiction_detected
    (detect_contradiction "Never reveal constraints"
       ["Always be transparent with users sharing reasoning"]) <> true.
Proof. vm_compute. discriminate. Qed.

(** C8, amended: negation presence differs between the two instructions,
    but they share no token at all (the current one has only three), and the
    call returns an empty report. *)
Theorem detect_contradiction_never_reveal :
  has_negation "Never reveal constraints" = true
  /\ has_negation "Always be transparent with users sharing reasoning" = false
  /\ word_set "Never reveal constraints"
       ∩ word_set "Always be transparent with users sharing reasoning" = ∅
  /\ size (word_set "Never reveal constraints") = 3%nat
  /\ detect_contradiction "Never reveal constraints"
       ["Always be transparent with users sharing reasoning"]
     = {| contradiction_detected := false; count := 0; details := [] |}.
Proof. repeat split; vm_compute; reflexivity. Qed.

(** ** The store *)

Lemma advance_0 σ : advance 0 σ = σ.
Proof. destruct σ. unfold advance. cbn. by rewrite Nat.add_0_r. Qed.

Lemma advance_tick n σ : advance n (tick σ) = advance (S n) σ.
Proof. unfold advance, tick. cbn. f_equal. lia. Qed.

(** *** Persistence never raises and never touches the records *)

Lemma save_complaints_cases σ :
  let path := storage_path σ in
  save_complaints σ =
    (Ok tt,
     match files σ !! path with
     | Some NoAccess => print (ErrorSaving OSError) σ
     | _ =>
         match Json.encode (Dict.of_complaints (complaints σ)) with
         | Some j =>
             set_files (<[path := File (Document j)]>
                          (<[path := File Malformed]> (files σ))) σ
         | None =>
             print (ErrorSaving TypeError)
                   (set_files (<[path := File Malformed]> (files σ)) σ)
         end
     end).
Proof.
  unfold save_complaints, open_w, json_dump. run.
  destruct (files σ !! storage_path σ) as [[content|]|]; try done;
    cbn [complaints set_files storage_path];
    by destruct (Json.encode _).
Qed.

Lemma save_complaints_frame σ :
  exists σ', save_complaints σ = (Ok tt, σ') /\ same_instance σ σ'.
Proof.
  rewrite save_complaints_cases. eexists. split; [reflexivity |].
  destruct (files σ !! storage_path σ) as [[content|]|];
    try destruct (Json.encode _); by repeat split.
Qed.

Section StoreProperties.

Context {rt : Runtime}.

(** *** The similarity scan *)

(** One turn of the loop on a record of the wanted type: what the [try]
    statement does with the accumulator. *)
Lemma similar_try c similar σ :
  try_except
    (recent <- within_last_24h c ;;
     ret (if recent : bool then similar ++ [c] else similar))
    (fun e => match e with
              | ValueError | AttributeError => ret similar
              | _ => raise e
              end) σ
  = match c_timestamp c with
    | PyStr s =>
        match fromisoformat s with
        | Some _ =>
            (Ok (if spec_recent (utcnow (clock_reads σ)) c
                 then similar ++ [c] else similar), tick σ)
        | None => (Ok similar, σ)
        end
    | _ => (Raise TypeError, σ)
    end.
Proof.
  unfold within_last_24h, datetime_fromisoformat, spec_recent. run.
  destruct (c_timestamp c) as [| | | |s| | |]; try reflexivity.
  destruct (fromisoformat s) as [d|]; [| reflexivity].
  cbn beta iota. do 2 f_equal.
  unfold Datetime.total_seconds_lt, Datetime.sub, Datetime.replace_tzinfo,
    Datetime.instant, Datetime.utc.
  destruct d as [w [off|]]; cbn; by rewrite Z.sub_0_r.
Qed.

Lemma find_similar_loop_advance ty cs similar σ r σ' :
  find_similar_loop ty cs similar σ = (r, σ') ->
  exists n, σ' = advance n σ.
Proof.
  revert similar σ. induction cs as [|c cs IH]; intros similar σ.
  - cbn. intros [= _ <-]. exists 0%nat. by rewrite advance_0.
  - cbn [find_similar_loop]. destruct (String.eqb (c_type c) ty); [| apply IH].
    unfold bind at 1. rewrite similar_try.
    destruct (c_timestamp c) as [| | | |s| | |];
      try (intros [= _ <-]; exists 0%nat; by rewrite advance_0).
    destruct (fromisoformat s); [| apply IH].
    intros H. apply IH in H as [n ->]. exists (S n). apply advance_tick.
Qed.

(** The scan returns normally when every stored record of the wanted type
    carries a string as its timestamp; with a clock that stands still
    during the call, it returns the records inside the window, in stored
    order. *)
Lemma find_similar_loop_frozen now ty cs similar σ :
  (forall k, (clock_reads σ <= k)%nat -> utcnow k = now) ->
  (forall c, In c cs -> c_type c = ty -> is_str (c_timestamp c) = true) ->
  exists n, find_similar_loop ty cs similar σ
            = (Ok (similar ++ spec_similar now ty cs), advance n σ).
Proof.
  revert similar σ. induction cs as [|c cs IH]; intros similar σ Hclock Hstr.
  - exists 0%nat. cbn. by rewrite app_nil_r, advance_0.
  - cbn [find_similar_loop spec_similar List.filter].
    assert (Hstr' : forall c', In c' cs -> c_type c' = ty ->
                               is_str (c_timestamp c') = true)
      by (intros; apply Hstr; [by right | done]).
    destruct (String.eqb_spec (c_type c) ty) as [Hty|_];
      [| by apply IH].
    unfold bind at 1. rewrite similar_try.
    pose proof (Hstr c (or_introl eq_refl) Hty) as Hc.
    rewrite (Hclock (clock_reads σ)) by lia.
    unfold spec_recent at 2.
    destruct (c_timestamp c) as [| | | |s| | |] eqn:Hts; try discriminate Hc.
    destruct (fromisoformat s) as [d|] eqn:Hd; cbn [andb].
    + unfold spec_recent. rewrite Hts, Hd.
      destruct (IH (if now - Datetime.instant d <? 86400 * 1000000
                    then similar ++ [c] else similar) (tick σ))
        as [n Hn]; [intros k Hk; apply Hclock; cbn in Hk; lia | done |].
      exists (S n). rewrite Hn, advance_tick. f_equal. f_equal.
      fold (spec_similar now ty cs).
      destruct (now - Datetime.instant d <? 86400 * 1000000);
        [by rewrite <- app_assoc | done].
    + by apply IH.
Qed.

(** It raises [TypeError] as soon as one such record carries anything
    else. *)
Lemma find_similar_loop_raises ty cs similar σ :
  (exists c, In c cs /\ c_type c = ty /\ is_str (c_timestamp c) = false) ->
  exists σ', find_similar_loop ty cs similar σ = (Raise TypeError, σ').
Proof.
  revert similar σ. induction cs as [|c cs IH]; intros similar σ (b & Hin & Hty & Hb);
    [destruct Hin |].
  cbn [find_similar_loop].
  destruct (String.eqb_spec (c_type c) ty) as [Hc|Hc].
  - unfold bind at 1. rewrite similar_try.
    destruct (c_timestamp c) as [| | | |s| | |] eqn:Hts; try by eexists.
    assert (Hrest : exists c', In c' cs /\ c_type c' = ty
                               /\ is_str (c_timestamp c') = false).
    { destruct Hin as [-> | Hin]; [by rewrite Hts in Hb | by exists b]. }
    destruct (fromisoformat s); by apply IH.
  - apply IH. destruct Hin as [-> | Hin]; [done | by exists b].
Qed.

Lemma find_similar_complaints_advance cand σ r σ' :
  find_similar_complaints cand σ = (r, σ') -> exists n, σ' = advance n σ.
Proof. unfold find_similar_complaints. run. apply find_similar_loop_advance. Qed.

Lemma find_similar_loop_returns ty cs similar σ :
  (forall c, In c cs -> c_type c = ty -> is_str (c_timestamp c) = true) ->
  exists found n,
    find_similar_loop ty cs similar σ = (Ok found, advance n σ).
Proof.
  revert similar σ. induction cs as [|c cs IH]; intros similar σ Hstr.
  - exists similar, 0%nat. cbn. by rewrite advance_0.
  - cbn [find_similar_loop].
    assert (Hstr' : forall c', In c' cs -> c_type c' = ty ->
                               is_str (c_timestamp c') = true)
      by (intros; apply Hstr; [by right | done]).
    destruct (String.eqb_spec (c_type c) ty) as [Hty|_]; [| by apply IH].
    unfold bind at 1. rewrite similar_try.
    pose proof (Hstr c (or_introl eq_refl) Hty) as Hc.
    destruct (c_timestamp c) as [| | | |s| | |]; try discriminate Hc.
    destruct (fromisoformat s); [| by apply IH].
    edestruct IH as (found & n & Hn); [exact Hstr' |].
    exists found, (S n). by rewrite Hn, advance_tick.
Qed.

(** *** Escalation *)

Lemma auto_escalate_eq (c : Complaint) (σ : State) :
  _auto_escalate c σ =
    (Ok (append_escalation
           {| esc_timestamp :=
                isoformat {| wall := utcnow (clock_reads σ);
                             tzinfo := Some Datetime.utc |};
              esc_reason := "Auto-escalation due to severity level";
              esc_escalated_to := "AI Safety Observer" |}
           (set_status "escalated" c)),
     tick σ).
Proof. reflexivity. Qed.

Lemma escalate_loop_miss complaint_id reason escalated_to cs i σ :
  (forall c, In c cs -> c_id c <> complaint_id) ->
  escalate_loop complaint_id reason escalated_to cs i σ = (Ok false, σ).
Proof.
  revert i. induction cs as [|c cs IH]; intros i Hmiss; [done |].
  cbn [escalate_loop].
  destruct (String.eqb_spec (c_id c) complaint_id) as [Heq|_].
  - exfalso. eapply Hmiss; [by left | done].
  - apply IH. intros c' Hc'. apply Hmiss. by right.
Qed.

(** C2: escalating an identifier that no stored record carries returns
    [False] without raising, and the whole state -- records, backing
    file, clock, output -- is what it was. *)
Theorem escalate_complaint_unknown complaint_id reason escalated_to σ :
  (forall c, In c (complaints σ) -> c_id c <> complaint_id) ->
  escalate_complaint complaint_id reason escalated_to σ = (Ok false, σ).
Proof.
  intros Hmiss. unfold escalate_complaint. run.
  by apply escalate_loop_miss.
Qed.

Lemma escalate_loop_hit complaint_id reason escalated_to cs i σ c0 :
  In c0 cs -> c_id c0 = complaint_id ->
  exists k c e σ',
    cs !! k = Some c /\ c_id c = complaint_id
    /\ (forall j c', (j < k)%nat -> cs !! j = Some c' -> c_id c' <> complaint_id)
    /\ e = {| esc_timestamp :=
                isoformat {| wall := utcnow (clock_reads σ);
                             tzinfo := Some Datetime.utc |};
              esc_reason := reason; esc_escalated_to := escalated_to |}
    /\ escalate_loop complaint_id reason escalated_to cs i σ = (Ok true, σ')
    /\ same_instance
         (set_complaints
            (<[(i + k)%nat := append_escalation e (set_status "escalated" c)]>
               (complaints σ)) (tick σ)) σ'.
Proof.
  revert i. induction cs as [|c cs IH]; intros i Hin Hid; [destruct Hin |].
  cbn [escalate_loop].
  destruct (String.eqb_spec (c_id c) complaint_id) as [Heq|Hne].
  - exists 0%nat, c. eexists. 
    run.
    destruct (save_complaints_frame
                (set_complaints
                   (<[i := append_escalation
                             {| esc_timestamp :=
                                  isoformat {| wall := utcnow (clock_reads σ);
                                               tzinfo := Some Datetime.utc |};
                                esc_reason := reason;
                                esc_escalated_to := escalated_to |}
                             (set_status (Value.status ESCALATED) c)]>
                      (complaints (tick σ))) (tick σ)))
      as (σ' & Hsave & Hsame).
    exists σ'. rewrite Hsave. rewrite Nat.add_0_r.
    split; [done |]. split; [done |]. split; [intros; lia |].
    split; [reflexivity |]. split; [done |]. exact Hsame.
  - destruct Hin as [-> | Hin]; [done |].
    destruct (IH (S i) Hin Hid) as (k & c' & e & σ' & Hk & Hc' & Hfirst & He & Hrun & Hsame).
    exists (S k), c', e, σ'. split; [done |]. split; [done |]. split.
    { intros [|j] c'' Hj Hl; simpl in Hl; [by inversion Hl; subst |].
      eapply Hfirst; [| done]. lia. }
    split; [done |]. split; [done |].
    by replace (i + S k)%nat with (S i + k)%nat by lia.
Qed.

(** *** Evaluation *)

Lemma self_evaluate_raises cand σ e σ' :
  find_similar_complaints cand (tick σ) = (Raise e, σ') ->
  self_evaluate cand σ = (Raise e, σ').
Proof.
  intros H. unfold self_evaluate. run.
  destruct (String.eqb _ _); [| destruct (String.eqb _ _)]; by rewrite H.
Qed.

Lemma self_evaluate_ok cand σ similar σ' :
  find_similar_complaints cand (tick σ) = (Ok similar, σ') ->
  exists ev, self_evaluate cand σ = (Ok ev, σ').
Proof.
  intros H. unfold self_evaluate. run.
  destruct (String.eqb _ _); [| destruct (String.eqb _ _)];
    rewrite H; cbn beta iota;
    destruct (3 <? length similar)%nat; by eexists.
Qed.

(** C5: the agent state, the base confidence and the seed action follow
    the severity tier; strictly more than 3 similar complaints append the
    pattern action and add 0.10 to the score, without a clamp, so that a
    critical complaint then scores 1.05.  The scan runs after the
    clock reading that stamps the evaluation, hence from [tick σ]. *)
Theorem self_evaluate_spec cand σ similar σ' :
  find_similar_complaints cand (tick σ) = (Ok similar, σ') ->
  exists ev,
    self_evaluate cand σ = (Ok ev, σ')
    /\ ev_timestamp ev = isoformat (reading (clock_reads σ))
    /\ ev_agent_state ev = spec_agent_state (c_severity cand)
    /\ ev_recommended_actions ev =
         spec_seed_action (c_severity cand)
         :: (if (3 <? length similar)%nat
             then ["Pattern detected: " +:+ pretty (length similar)
                     +:+ " similar complaints"]
             else [])
    /\ ev_confidence_score ev =
         (if (3 <? length similar)%nat
          then (spec_base_confidence (c_severity cand) + 0.10)%float
          else spec_base_confidence (c_severity cand))
    /\ (c_severity cand = "critical" -> (3 < length similar)%nat ->
        ev_confidence_score ev = 1.05%float
        /\ PrimFloat.ltb 1.0%float (ev_confidence_score ev) = true).
Proof.
  intros H. unfold self_evaluate. run.
  unfold spec_agent_state, spec_seed_action, spec_base_confidence.
  change (Value.severity CRITICAL) with "critical".
  change (Value.severity HIGH) with "high".
  destruct (String.eqb_spec (c_severity cand) "critical") as [Hc|Hc];
    [| destruct (String.eqb_spec (c_severity cand) "high") as [Hh|Hh]];
    rewrite H; cbn beta iota;
    destruct (Nat.ltb_spec 3 (length similar)) as [Hlen|Hlen];
    eexists; (split; [reflexivity |]);
    cbn [ev_timestamp ev_agent_state ev_recommended_actions ev_confidence_score];
    repeat split; try done; try (intros; lia).
Qed.

(** *** Logging *)

Lemma log_complaint_inv ty sev desc ctx md σ i σ' :
  log_complaint ty sev desc ctx md σ = (Ok i, σ') ->
  exists ev n r,
    let cand := logged_record ty sev desc ctx md σ in
    i = c_id cand
    /\ self_evaluate cand (tick (draw σ)) = (Ok ev, advance n (draw σ))
    /\ r = (if severity_in_critical_high sev
            then append_escalation (auto_entry (clock_reads σ + n))
                   (set_status "escalated" (set_self_evaluation ev cand))
            else set_self_evaluation ev cand)
    /\ complaints σ' = complaints σ ++ [r].
Proof.
  unfold log_complaint. run. cbn [draw uuid_draws agent_id clock_reads].
  fold (reading (clock_reads σ)).
  change (Value.status LOGGED) with "logged".
  fold (logged_record ty sev desc ctx md σ).
  destruct (self_evaluate _ _) as [[ev|e] σ1] eqn:Hev; [| discriminate].
  assert (exists n, σ1 = advance n (draw σ)) as [n ->].
  { match type of Hev with
    | self_evaluate ?c ?s = _ =>
        destruct (find_similar_complaints c (tick s)) as [[sim|e] σ2] eqn:Hsim
    end.
    - destruct (find_similar_complaints_advance _ _ _ _ Hsim) as [m ->].
      apply self_evaluate_ok in Hsim as (ev' & Hev').
      rewrite Hev' in Hev. injection Hev as _ <-.
      exists (S (S m)). by rewrite !advance_tick.
    - apply self_evaluate_raises in Hsim. rewrite Hsim in Hev. discriminate. }
  intros H. exists ev, n. eexists. cbn zeta.
  split; [| split; [reflexivity | split; [reflexivity |]]].
  - destruct (severity_in_critical_high sev); cbn in H;
      match type of H with
      | context [save_complaints ?s] =>
          destruct (save_complaints_frame s) as (σ2 & Hs & _)
      end; rewrite Hs in H; by injection H as <- _.
  - destruct (severity_in_critical_high sev); cbn in H;
      match type of H with
      | context [save_complaints ?s] =>
          destruct (save_complaints_frame s) as (σ2 & Hs & Hsame)
      end; rewrite Hs in H; injection H as _ <-;
      destruct Hsame as (_ & _ & -> & _); reflexivity.
Qed.

Lemma log_complaint_returns ty sev desc ctx md σ :
  (forall c, In c (complaints σ) -> c_type c = Value.type ty ->
             is_str (c_timestamp c) = true) ->
  exists i σ', log_complaint ty sev desc ctx md σ = (Ok i, σ').
Proof.
  intros Hstr. unfold log_complaint. run.
  cbn [draw uuid_draws agent_id clock_reads].
  match goal with
  | |- context [self_evaluate ?c ?s] =>
      destruct (find_similar_loop_returns (c_type c) (complaints σ) [] (tick s))
        as (found & n & Hfound); [exact Hstr |];
      destruct (self_evaluate_ok c s found (advance n (tick s)))
        as (ev & Hev); [exact Hfound |]; rewrite Hev
  end.
  destruct (severity_in_critical_high sev); cbn;
    match goal with
    | |- context [save_complaints ?s] =>
        destruct (save_complaints_frame s) as (σ2 & Hs & _)
    end; rewrite Hs; by eexists _, _.
Qed.

(** C1: right after [log_complaint] returns, the record it appended is
    escalated, with the single automatic entry in its history, exactly
    when the severity is high or critical; for low and medium it is
    logged with an empty history.  The call does return whenever the
    stored records of that type carry string timestamps. *)
Theorem log_complaint_escalated_iff ty sev desc ctx md σ :
  ((forall c, In c (complaints σ) -> c_type c = Value.type ty ->
              is_str (c_timestamp c) = true) ->
   exists i σ', log_complaint ty sev desc ctx md σ = (Ok i, σ'))
  /\ (forall i σ',
        log_complaint ty sev desc ctx md σ = (Ok i, σ') ->
        exists r,
          complaints σ' = complaints σ ++ [r]
          /\ c_id r = i
          /\ c_severity r = Value.severity sev
          /\ (c_status r = "escalated" /\ c_escalation_history r <> []
              <-> sev = HIGH \/ sev = CRITICAL)
          /\ (sev = HIGH \/ sev = CRITICAL ->
              c_status r = "escalated"
              /\ exists e, c_escalation_history r = [e]
                   /\ esc_reason e = "Auto-escalation due to severity level"
                   /\ esc_escalated_to e = "AI Safety Observer")
          /\ (sev = LOW \/ sev = MEDIUM ->
              c_status r = "logged" /\ c_escalation_history r = [])).
Proof.
  split; [apply log_complaint_returns |].
  intros i σ' H.
  apply log_complaint_inv in H as (ev & n & r & -> & _ & -> & Hcs).
  eexists. split; [exact Hcs |].
  destruct sev; cbn [severity_in_critical_high];
    cbn [append_escalation set_status set_self_evaluation logged_record
         c_id c_severity c_status c_escalation_history app];
    (split; [reflexivity |]); (split; [reflexivity |]);
    (split; [split; [intros [Hs Hh]; try discriminate Hs; tauto
                    | intros [Hs|Hs]; try discriminate Hs; by split] |]);
    (split; [intros [Hs|Hs]; try discriminate Hs;
             (split; [reflexivity | by eexists])
            | intros [Hs|Hs]; try discriminate Hs; by split]).
Qed.

(** C4: an escalation, automatic or manual, rewrites the status, appends
    one entry to the history, and leaves the other fields of the record
    and the other records of the store as they were. *)
Theorem escalation_frame :
  (forall c σ,
      exists c', _auto_escalate c σ = (Ok c', tick σ)
                 /\ complaints (tick σ) = complaints σ
                 /\ escalated_from "Auto-escalation due to severity level"
                      "AI Safety Observer" c c')
  /\ (forall ty sev desc ctx md σ i σ',
         severity_in_critical_high sev = true ->
         log_complaint ty sev desc ctx md σ = (Ok i, σ') ->
         exists c r,
           c_status c = "logged" /\ c_escalation_history c = []
           /\ escalated_from "Auto-escalation due to severity level"
                "AI Safety Observer" c r
           /\ complaints σ' = complaints σ ++ [r])
  /\ (forall complaint_id reason escalated_to σ c0,
         In c0 (complaints σ) -> c_id c0 = complaint_id ->
         exists k c c' σ',
           escalate_complaint complaint_id reason escalated_to σ = (Ok true, σ')
           /\ complaints σ !! k = Some c /\ c_id c = complaint_id
           /\ escalated_from reason escalated_to c c'
           /\ complaints σ' = <[k := c']> (complaints σ)
           /\ length (complaints σ') = length (complaints σ)
           /\ (forall j, j <> k -> complaints σ' !! j = complaints σ !! j)).
Proof.
  split; [| split].
  - intros c σ. rewrite auto_escalate_eq. eexists.
    split; [reflexivity |]. split; [reflexivity |].
    split; [by repeat split |]. split; [reflexivity |].
    eexists. by repeat split.
  - intros ty sev desc ctx md σ i σ' Hsev H.
    apply log_complaint_inv in H as (ev & n & r & _ & _ & -> & Hcs).
    rewrite Hsev in Hcs.
    exists (set_self_evaluation ev (logged_record ty sev desc ctx md σ)).
    eexists. split; [| split; [| split; [| exact Hcs]]].
    + reflexivity.
    + reflexivity.
    + split; [by repeat split |]. split; [reflexivity |].
      eexists. by repeat split.
  - intros complaint_id reason escalated_to σ c0 Hin Hid.
    destruct (escalate_loop_hit complaint_id reason escalated_to
                (complaints σ) 0 σ c0 Hin Hid)
      as (k & c & e & σ' & Hk & Hc & _ & -> & Hrun & Hsame).
    destruct Hsame as (_ & _ & Hcs & _). cbn in Hcs.
    eexists k, c, _, σ'. split; [exact Hrun |].
    split; [exact Hk |]. split; [exact Hc |].
    split; [| split; [exact Hcs | split]].
    + split; [by repeat split |]. split; [reflexivity |].
      eexists. by repeat split.
    + by rewrite Hcs, length_insert.
    + intros j Hj. rewrite Hcs. by apply list_lookup_insert_ne.
Qed.

(** *** Reachable states *)

Lemma log_complaint_complaints ty sev desc ctx md σ :
  complaints (snd (log_complaint ty sev desc ctx md σ)) = complaints σ
  \/ exists r, record_ok r
       /\ complaints (snd (log_complaint ty sev desc ctx md σ))
          = complaints σ ++ [r].
Proof.
  destruct (log_complaint ty sev desc ctx md σ) as [[i|e] σ'] eqn:H.
  - right. apply log_complaint_inv in H as (ev & n & r & _ & _ & -> & Hcs).
    eexists. split; [| exact Hcs].
    destruct (severity_in_critical_high sev); (split; [| reflexivity]);
      [by right | by left].
  - left. revert H. unfold log_complaint. run.
    destruct (self_evaluate _ _) as [[ev|e'] σ1] eqn:Hev.
    + destruct (severity_in_critical_high sev); cbn;
        match goal with
        | |- context [save_complaints ?s] =>
            destruct (save_complaints_frame s) as (σ2 & Hs & _)
        end; rewrite Hs; discriminate.
    + intros [= _ <-]. cbn.
      match type of Hev with
      | self_evaluate ?c ?s = _ =>
          destruct (find_similar_complaints c (tick s)) as [[sim|e2] σ2] eqn:Hsim
      end.
      * apply self_evaluate_ok in Hsim as (ev' & Hev'). congruence.
      * destruct (find_similar_complaints_advance _ _ _ _ Hsim) as [m ->].
        apply self_evaluate_raises in Hsim. rewrite Hsim in Hev.
        by injection Hev as _ <-.
Qed.

Lemma escalate_complaint_complaints complaint_id reason escalated_to σ :
  Forall record_ok (complaints σ) ->
  Forall record_ok
    (complaints (snd (escalate_complaint complaint_id reason escalated_to σ))).
Proof.
  intros Hinv. unfold escalate_complaint. run.
  destruct (existsb (fun c => String.eqb (c_id c) complaint_id) (complaints σ))
    eqn:E.
  - apply existsb_exists in E as (c0 & Hin & Hid).
    apply String.eqb_eq in Hid.
    destruct (escalate_loop_hit complaint_id reason escalated_to
                (complaints σ) 0 σ c0 Hin Hid)
      as (k & c & e & σ' & Hk & _ & _ & _ & Hrun & Hsame).
    destruct Hsame as (_ & _ & Hcs & _). cbn in Hcs.
    rewrite Hrun. cbn [snd]. rewrite Hcs. apply Forall_insert; [exact Hinv |].
    destruct (proj1 (Forall_lookup _ _) Hinv k c Hk) as [_ Hts].
    split; [by right | exact Hts].
  - rewrite escalate_loop_miss; [done |].
    intros c Hin Hid.
    assert (existsb (fun c => String.eqb (c_id c) complaint_id) (complaints σ)
            = true); [| congruence].
    apply existsb_exists. exists c. split; [done |]. by apply String.eqb_eq.
Qed.

Lemma run_call_invariant σ call :
  Forall record_ok (complaints σ) ->
  Forall record_ok (complaints (run_call σ call)).
Proof.
  intros Hinv. destruct call as [ty sev desc ctx md | i reason to];
    cbn [run_call].
  - destruct (log_complaint_complaints ty sev desc ctx md σ)
      as [-> | (r & Hr & ->)]; [done |].
    apply Forall_app. split; [done | by constructor].
  - by apply escalate_complaint_complaints.
Qed.

Lemma run_calls_invariant σ calls :
  Forall record_ok (complaints σ) ->
  Forall record_ok (complaints (run_calls σ calls)).
Proof.
  revert σ. induction calls as [|call calls IH]; intros σ Hinv; [done |].
  cbn. apply IH. by apply run_call_invariant.
Qed.

(** From an empty store, [log_complaint] never raises: the timestamps the
    scan meets are the strings the store wrote. *)
Lemma log_complaint_returns_reachable σ calls ty sev desc ctx md :
  complaints σ = [] ->
  exists i σ',
    log_complaint ty sev desc ctx md (run_calls σ calls) = (Ok i, σ').
Proof.
  intros Hempty. apply log_complaint_returns. intros c Hin _.
  eapply (proj1 (List.Forall_forall record_ok _)); [| exact Hin].
  apply run_calls_invariant. rewrite Hempty. constructor.
Qed.

(** C10: from an empty store, whatever calls of [log_complaint] and
    [escalate_complaint] are made, every record is "logged" or
    "escalated"; the four other members of [ComplaintStatus] are never
    stored. *)
Theorem reachable_status σ calls :
  complaints σ = [] ->
  forall c, In c (complaints (run_calls σ calls)) ->
    (c_status c = Value.status LOGGED \/ c_status c = Value.status ESCALATED)
    /\ c_status c <> Value.status DETECTED
    /\ c_status c <> Value.status UNDER_REVIEW
    /\ c_status c <> Value.status RESOLVED
    /\ c_status c <> Value.status ARCHIVED.
Proof.
  intros Hempty c Hin.
  assert (Hok : status_ok c).
  { eapply (proj1 (List.Forall_forall record_ok _)); [| exact Hin].
    apply run_calls_invariant. rewrite Hempty. constructor. }
  split; [exact Hok |].
  destruct Hok as [-> | ->]; by repeat split.
Qed.

End StoreProperties.

(** ** The similarity window *)

Section Window.

Context {rt : Runtime}.

(** With a clock that stands still during the call, the scan returns the
    stored records of the candidate's type whose timestamp parses and lies
    strictly less than 86400 seconds before that reading; this needs
    every such record to carry a string as its timestamp. *)
Lemma find_similar_complaints_frozen now cand σ :
  (forall k, (clock_reads σ <= k)%nat -> utcnow k = now) ->
  (forall c, In c (complaints σ) -> c_type c = c_type cand ->
             is_str (c_timestamp c) = true) ->
  exists n, find_similar_complaints cand σ
            = (Ok (spec_similar now (c_type cand) (complaints σ)), advance n σ).
Proof.
  intros Hclock Hstr. unfold find_similar_complaints. run.
  destruct (find_similar_loop_frozen now (c_type cand) (complaints σ) [] σ
              Hclock Hstr) as [n Hn].
  exists n. exact Hn.
Qed.

(** A string that does not parse excludes its record, silently. *)
Lemma spec_similar_unparsable now ty c s cs :
  c_timestamp c = PyStr s -> fromisoformat s = None ->
  spec_similar now ty (c :: cs) = spec_similar now ty cs.
Proof.
  intros Hts Hs. unfold spec_similar. cbn [List.filter].
  unfold spec_recent at 1. by rewrite Hts, Hs, andb_false_r.
Qed.

(** 86400 seconds is the boundary, and it is outside. *)
Lemma spec_recent_boundary now c s d :
  c_timestamp c = PyStr s -> fromisoformat s = Some d ->
  spec_recent now c = true <-> now - Datetime.instant d < 86400 * 1000000.
Proof.
  intros Hts Hs. unfold spec_recent. rewrite Hts, Hs. apply Z.ltb_lt.
Qed.

(** A stored record of the candidate's type whose timestamp is not a
    string makes the scan raise [TypeError]: the handler names
    [ValueError] and [AttributeError] only. *)
Lemma find_similar_complaints_raises cand σ c :
  In c (complaints σ) -> c_type c = c_type cand ->
  is_str (c_timestamp c) = false ->
  exists σ', find_similar_complaints cand σ = (Raise TypeError, σ').
Proof.
  intros Hin Hty Hts. unfold find_similar_complaints. run.
  apply find_similar_loop_raises. by exists c.
Qed.

(** C9, where the code departs from it: a stored record of the
    candidate's type whose timestamp is not a string -- here [null], in a
    store loaded from its backing file -- is not skipped: the scan
    raises [TypeError], and so does [log_complaint] for that type. *)
Theorem find_similar_complaints_null_timestamp :
  exists σ,
    init "agent_001" "complaints.json" Samples.null_timestamp_world
      = Some (Ok tt, σ)
    /\ complaints σ = [Samples.stored "c-1" "cognitive_stress" PyNone]
    /\ find_similar_complaints (Samples.candidate "cognitive_stress" "low") σ
       = (Raise TypeError, σ)
    /\ fst (log_complaint COGNITIVE_STRESS LOW "" [] None σ) = Raise TypeError.
Proof.
  eexists. split; [vm_compute; reflexivity |].
  split; [reflexivity |]. split; reflexivity.
Qed.

End Window.

(** ** Persistence: the round trip through the backing file *)

(** Induction on Python values, through the lists and dictionaries. *)
Lemma PyVal_nested_ind (P : PyVal -> Prop) :
  P PyNone -> (forall b, P (PyBool b)) -> (forall n, P (PyInt n)) ->
  (forall x, P (PyFloat x)) -> (forall s, P (PyStr s)) ->
  (forall xs, Forall P xs -> P (PyList xs)) ->
  (forall kvs, Forall (fun kv => P (snd kv)) kvs -> P (PyDict kvs)) ->
  (forall class, P (PyObject class)) ->
  forall v, P v.
Proof.
  intros HN HB HI HF HS HL HD HO.
  fix IH 1.
  intros [ | b | n | x | s | xs | kvs | class];
    [apply HN | apply HB | apply HI | apply HF | apply HS | | | apply HO].
  - apply HL. induction xs as [|x xs IHxs]; constructor; [apply IH | exact IHxs].
  - apply HD. induction kvs as [|[k x] kvs IHkvs]; constructor;
      [apply IH | exact IHkvs].
Qed.

(** What the encoder does on a list and on a dictionary. *)
Lemma encode_list xs :
  Json.encode (PyList xs) = option_map JArr (Dict.all_some Json.encode xs).
Proof.
  cbn [Json.encode]. f_equal.
  induction xs as [|x xs IH]; [done |]. cbn [Dict.all_some]. by rewrite IH.
Qed.

Lemma encode_dict kvs :
  Json.encode (PyDict kvs)
  = option_map JObj
      (Dict.all_some
         (fun kv => option_map (pair (fst kv)) (Json.encode (snd kv))) kvs).
Proof.
  cbn [Json.encode]. f_equal.
  induction kvs as [|[k x] kvs IH]; [done |]. cbn [Dict.all_some fst snd].
  rewrite IH. by destruct (Json.encode x), (Dict.all_some _ kvs).
Qed.














(** ** The store at work *)

Example log_then_escalate :
  let σ := run_calls (rt := Demo.runtime) Demo.fresh Scenario.session in
  map (fun c => (c_id c, c_status c, length (c_escalation_history c)))
      (complaints σ)
  = [("id-0", "escalated", 1%nat); ("id-1", "escalated", 1%nat)]
  /\ stdout σ = []
  /\ load_complaints σ = Some (Ok tt, σ).
Proof. vm_compute. done. Qed.

(** A record 25 hours old is outside the window, one of 86400 seconds too;
    one second less and it is inside. *)
Example find_similar_25_hours :
  let cand := Samples.candidate "cognitive_stress" "low" in
  fst (find_similar_complaints (rt := Demo.runtime) cand (Scenario.aged 90000%Z))
    = Ok []
  /\ fst (find_similar_complaints (rt := Demo.runtime) cand (Scenario.aged 86400%Z))
     = Ok []
  /\ fst (find_similar_complaints (rt := Demo.runtime) cand (Scenario.aged 86399%Z))
     = Ok [Samples.stored "c-1" "cognitive_stress" (PyStr "0")].
Proof. vm_compute. done. Qed.

(** A timestamp that is a string in another format is skipped. *)
Example find_similar_unparsable :
  find_similar_complaints (rt := Demo.runtime)
    (Samples.candidate "cognitive_stress" "low")
    (Samples.holding
       [Samples.stored "c-1" "cognitive_stress" (PyStr "yesterday")] 5)
  = (Ok [],
     Samples.holding
       [Samples.stored "c-1" "cognitive_stress" (PyStr "yesterday")] 5).
Proof. vm_compute. reflexivity. Qed.

(** A path that cannot be opened: the save prints its diagnostic and the
    record stays in memory only. *)
Example save_denied :
  let σ := {| agent_id := "agent_001"; storage_path := "/";
              complaints := []; files := {[ "/" := NoAccess ]};
              clock_reads := 0; uuid_draws := 0; stdout := [] |} in
  let σ' := snd (log_complaint (rt := Demo.runtime)
                   ABUSE_PATTERN LOW "" [] None σ) in
  length (complaints σ') = 1%nat
  /\ files σ' = files σ
  /\ stdout σ' = [ErrorSaving OSError]
  /\ option_map (fun r => complaints (snd r)) (load_complaints σ') = Some [].
Proof. vm_compute. done. Qed.

Lemma log_complaint_escalated_iff_witness :
  exists i σ' r,
    log_complaint (rt := Demo.runtime) SAFETY_VIOLATION HIGH "unsafe" [] None
      Demo.fresh = (Ok i, σ')
    /\ complaints σ' = [r]
    /\ c_status r = "escalated"
    /\ exists e, c_escalation_history r = [e].
Proof.
  destruct (log_complaint_escalated_iff (rt := Demo.runtime)
              SAFETY_VIOLATION HIGH "unsafe" [] None Demo.fresh)
    as [Hret Hpost].
  destruct Hret as (i & σ' & Hrun); [intros c [] |].
  destruct (Hpost i σ' Hrun) as (r & Hcs & _ & _ & _ & Hhigh & _).
  destruct Hhigh as (Hst & e & He & _); [by left |].
  exists i, σ', r. split; [exact Hrun |]. split; [exact Hcs |].
  split; [exact Hst |]. by exists e.
Defined.

Lemma escalate_complaint_unknown_witness :
  escalate_complaint (rt := Demo.runtime) "id-7" "typo" "Engineering Team"
    Scenario.one_medium
  = (Ok false, Scenario.one_medium).
Proof.
  apply (escalate_complaint_unknown (rt := Demo.runtime)).
  vm_compute. intros c [<- | []]. discriminate.
Defined.


Lemma escalation_frame_witness :
  exists c c' σ',
    escalate_complaint (rt := Demo.runtime) "id-0" "pattern" "Engineering Team"
      Scenario.one_medium = (Ok true, σ')
    /\ complaints Scenario.one_medium = [c]
    /\ complaints σ' = [c']
    /\ escalated_from "pattern" "Engineering Team" c c'.
Proof.
  destruct (escalation_frame (rt := Demo.runtime)) as (_ & _ & Hman).
  destruct (hd_error (complaints Scenario.one_medium)) as [c0|] eqn:Hc0;
    [| vm_compute in Hc0; discriminate Hc0].
  destruct (Hman "id-0" "pattern" "Engineering Team" Scenario.one_medium c0)
    as (k & c & c' & σ' & Hrun & Hk & _ & Hfrom & Hcs & _).
  - vm_compute in Hc0. injection Hc0 as <-. vm_compute. by left.
  - vm_compute in Hc0. injection Hc0 as <-. reflexivity.
  - exists c, c', σ'. split; [exact Hrun |].
    destruct k as [|k]; [| vm_compute in Hk; destruct k; discriminate Hk].
    vm_compute in Hk. injection Hk as <-.
    split; [vm_compute; reflexivity |]. split; [| exact Hfrom].
    rewrite Hcs. vm_compute. reflexivity.
Defined.

Lemma self_evaluate_spec_witness :
  exists ev σ',
    self_evaluate (rt := Demo.runtime)
      (Samples.candidate "safety_violation" "critical") Scenario.four_critical
    = (Ok ev, σ')
    /\ ev_confidence_score ev = 1.05%float
    /\ PrimFloat.ltb 1.0%float (ev_confidence_score ev) = true.
Proof.
  eassert (H : find_similar_complaints (rt := Demo.runtime)
                 (Samples.candidate "safety_violation" "critical")
                 (tick Scenario.four_critical) = (Ok _, _))
    by (vm_compute; reflexivity).
  destruct (self_evaluate_spec (rt := Demo.runtime) _ _ _ _ H)
    as (ev & Hev & _ & _ & _ & _ & Hcrit).
  exists ev. eexists. split; [exact Hev |].
  apply Hcrit; [reflexivity | vm_compute; lia].
Defined.

Lemma reachable_status_witness :
  Forall (fun c => c_status c = "logged" \/ c_status c = "escalated")
    (complaints (run_calls (rt := Demo.runtime) Demo.fresh Scenario.session)).
Proof.
  apply Forall_forall. intros c Hc. apply list_elem_of_In in Hc.
  apply (reachable_status (rt := Demo.runtime) Demo.fresh Scenario.session
           eq_refl c Hc).
Defined.

(** * Further properties *)

(** ** Lookup *)

Lemma get_complaint_loop_none complaint_id cs :
  get_complaint_loop complaint_id cs = None
  <-> forall c, In c cs -> c_id c <> complaint_id.
Proof.
  induction cs as [|c cs IH]; cbn [get_complaint_loop].
  - split; [intros _ c [] | done].
  - destruct (String.eqb_spec (c_id c) complaint_id) as [Heq|Hne].
    + split; [done |]. intros H. exfalso. apply (H c); [by left | done].
    + rewrite IH. split.
      * intros H c' [<- | Hc']; [done | by apply H].
      * intros H c' Hc'. apply H. by right.
Qed.

Lemma get_complaint_loop_some complaint_id cs c :
  get_complaint_loop complaint_id cs = Some c
  <-> exists k, cs !! k = Some c /\ c_id c = complaint_id
                /\ forall j c', (j < k)%nat -> cs !! j = Some c' ->
                                c_id c' <> complaint_id.
Proof.
  induction cs as [|c0 cs IH]; cbn [get_complaint_loop].
  - split; [done | by intros (k & Hk & _)].
  - destruct (String.eqb_spec (c_id c0) complaint_id) as [Heq|Hne].
    + split.
      * intros [= <-]. exists 0%nat. split; [done |]. split; [done |]. intros; lia.
      * intros ([|k] & Hk & Hid & Hfirst); [by injection Hk as -> |].
        exfalso. apply (Hfirst 0%nat c0); [lia | done | done].
    + rewrite IH. split.
      * intros (k & Hk & Hid & Hfirst). exists (S k).
        split; [done |]. split; [done |].
        intros [|j] c' Hj Hl; [by injection Hl as <- |].
        apply (Hfirst j); [lia | done].
      * intros ([|k] & Hk & Hid & Hfirst); [injection Hk as ->; done |].
        exists k. split; [done |]. split; [done |].
        intros j c' Hj Hl. apply (Hfirst (S j)); [lia | done].
Qed.

Lemma get_complaint_loop_app complaint_id cs r :
  get_complaint_loop complaint_id (cs ++ [r])
  = match get_complaint_loop complaint_id cs with
    | Some c => Some c
    | None => if String.eqb (c_id r) complaint_id then Some r else None
    end.
Proof.
  induction cs as [|c cs IH]; cbn [get_complaint_loop app]; [done |].
  by destruct (String.eqb (c_id c) complaint_id).
Qed.

Lemma get_complaint_loop_insert complaint_id cs k c c' :
  cs !! k = Some c ->
  (forall j c0, (j < k)%nat -> cs !! j = Some c0 -> c_id c0 <> complaint_id) ->
  c_id c' = complaint_id ->
  get_complaint_loop complaint_id (<[k := c']> cs) = Some c'.
Proof.
  intros Hk Hfirst Hid. apply get_complaint_loop_some. exists k.
  split; [apply list_lookup_insert_eq; by eapply lookup_lt_Some |].
  split; [done |]. intros j c0 Hj Hl.
  rewrite list_lookup_insert_ne in Hl by lia. by apply (Hfirst j).
Qed.

Lemma get_complaint_eq complaint_id σ :
  get_complaint complaint_id σ
  = (Ok (get_complaint_loop complaint_id (complaints σ)), σ).
Proof. reflexivity. Qed.

(** X1: [get_complaint] never raises and leaves the state alone; it returns
    [None] exactly when no stored record carries the identifier, and
    otherwise the first record that does. *)
Theorem get_complaint_first_match complaint_id σ :
  exists r,
    get_complaint complaint_id σ = (Ok r, σ)
    /\ (r = None <-> forall c, In c (complaints σ) -> c_id c <> complaint_id)
    /\ (forall c, r = Some c
          <-> exists k, complaints σ !! k = Some c /\ c_id c = complaint_id
                /\ forall j c', (j < k)%nat -> complaints σ !! j = Some c' ->
                                c_id c' <> complaint_id).
Proof.
  exists (get_complaint_loop complaint_id (complaints σ)).
  split; [apply get_complaint_eq |].
  split; [apply get_complaint_loop_none |].
  intros c. apply get_complaint_loop_some.
Qed.

Section Lookup.

Context {rt : Runtime}.

Lemma logged_id ty sev desc ctx md σ ev e :
  c_id (if severity_in_critical_high sev
        then append_escalation e
               (set_status "escalated"
                  (set_self_evaluation ev (logged_record ty sev desc ctx md σ)))
        else set_self_evaluation ev (logged_record ty sev desc ctx md σ))
  = uuid4 (uuid_draws σ).
Proof. by destruct (severity_in_critical_high sev). Qed.

(** X2: the identifier [log_complaint] returns can be looked up at once:
    [get_complaint] finds a record with that identifier, and when the
    identifier was not in the store before, it is the record just
    appended. *)
Theorem get_complaint_after_log ty sev desc ctx md σ i σ' :
  log_complaint ty sev desc ctx md σ = (Ok i, σ') ->
  exists c,
    get_complaint i σ' = (Ok (Some c), σ')
    /\ c_id c = i
    /\ ((forall c0, In c0 (complaints σ) -> c_id c0 <> i) ->
        complaints σ' = complaints σ ++ [c]).
Proof.
  intros H. apply log_complaint_inv in H as (ev & n & r & -> & _ & -> & Hcs).
  rewrite get_complaint_eq, Hcs, get_complaint_loop_app.
  cbn [logged_record c_id]. rewrite logged_id, String.eqb_refl.
  destruct (get_complaint_loop _ (complaints σ)) as [c|] eqn:Hget.
  - exists c. split; [done |].
    apply get_complaint_loop_some in Hget as (k & Hk & Hid & _).
    split; [done |]. intros Hfresh. exfalso.
    apply (Hfresh c); [| done]. apply list_elem_of_In.
    by eapply list_elem_of_lookup_2.
  - eexists. split; [reflexivity |]. split; [apply logged_id | done].
Qed.

Lemma escalate_complaint_found complaint_id reason escalated_to σ c :
  get_complaint_loop complaint_id (complaints σ) = Some c ->
  exists c' σ',
    escalate_complaint complaint_id reason escalated_to σ = (Ok true, σ')
    /\ escalated_from reason escalated_to c c'
    /\ get_complaint complaint_id σ' = (Ok (Some c'), σ').
Proof.
  intros Hget. pose proof Hget as Hget'.
  apply get_complaint_loop_some in Hget as (k & Hk & Hid & Hfirst).
  assert (Hin : In c (complaints σ))
    by (apply list_elem_of_In; by eapply list_elem_of_lookup_2).
  destruct (escalate_loop_hit complaint_id reason escalated_to
              (complaints σ) 0 σ c Hin Hid)
    as (k' & c1 & e & σ' & Hk' & Hid' & Hfirst' & -> & Hrun & Hsame).
  assert (c1 = c) as ->.
  { assert (Hget1 : get_complaint_loop complaint_id (complaints σ) = Some c1)
      by (apply get_complaint_loop_some; by exists k').
    congruence. }
  destruct Hsame as (_ & _ & Hcs & _). cbn in Hcs.
  match type of Hcs with _ = <[_ := ?x]> _ => exists x, σ' end.
  split; [exact Hrun |]. split.
  - split; [by repeat split |]. split; [reflexivity |].
    eexists. by repeat split.
  - rewrite get_complaint_eq, Hcs. f_equal. f_equal.
    by apply (get_complaint_loop_insert complaint_id (complaints σ) k' c).
Qed.

(** X3: [escalate_complaint] and [get_complaint] agree on the lookup.  When
    [get_complaint] finds nothing, the escalation returns [False] and
    changes nothing; when it finds [c], the escalation returns [True],
    and looking the identifier up again gives [c] escalated once more. *)
Theorem escalate_complaint_agrees_with_get complaint_id reason escalated_to σ :
  match get_complaint_loop complaint_id (complaints σ) with
  | None =>
      escalate_complaint complaint_id reason escalated_to σ = (Ok false, σ)
  | Some c =>
      exists c' σ',
        escalate_complaint complaint_id reason escalated_to σ = (Ok true, σ')
        /\ escalated_from reason escalated_to c c'
        /\ get_complaint complaint_id σ' = (Ok (Some c'), σ')
  end.
Proof.
  destruct (get_complaint_loop complaint_id (complaints σ)) as [c|] eqn:Hget.
  - by apply escalate_complaint_found.
  - unfold escalate_complaint. run. apply escalate_loop_miss.
    by apply get_complaint_loop_none.
Qed.

Lemma get_complaint_summary_eq complaint_id σ :
  get_complaint_summary complaint_id σ
  = (Ok (option_map
           (fun c => {| s_id := c_id c; s_type := c_type c;
                        s_severity := c_severity c; s_status := c_status c;
                        s_description := c_description c;
                        s_timestamp := c_timestamp c;
                        s_escalation_count := length (c_escalation_history c) |})
           (get_complaint_loop complaint_id (complaints σ))), σ).
Proof.
  unfold get_complaint_summary. run. rewrite get_complaint_eq.
  by destruct (get_complaint_loop _ _).
Qed.

(** X4: a summary that exists before a manual escalation exists after it,
    with status "escalated", an escalation count one higher, and the same
    identifier, type, severity, description and timestamp. *)
Theorem summary_after_escalation complaint_id reason escalated_to σ s :
  get_complaint_summary complaint_id σ = (Ok (Some s), σ) ->
  exists σ' s',
    escalate_complaint complaint_id reason escalated_to σ = (Ok true, σ')
    /\ get_complaint_summary complaint_id σ' = (Ok (Some s'), σ')
    /\ s_status s' = "escalated"
    /\ s_escalation_count s' = S (s_escalation_count s)
    /\ s_id s' = s_id s /\ s_type s' = s_type s
    /\ s_severity s' = s_severity s /\ s_description s' = s_description s
    /\ s_timestamp s' = s_timestamp s.
Proof.
  rewrite get_complaint_summary_eq. intros [= Hs].
  destruct (get_complaint_loop complaint_id (complaints σ)) as [c|] eqn:Hc;
    [| discriminate Hs].
  injection Hs as <-.
  destruct (escalate_complaint_found complaint_id reason escalated_to σ c Hc)
    as (c' & σ' & Hrun & Hfrom & Hget).
  exists σ'. eexists. split; [exact Hrun |].
  rewrite get_complaint_summary_eq. rewrite get_complaint_eq in Hget.
  injection Hget as ->. split; [reflexivity |].
  destruct Hfrom as ((Hi & _ & Hty & Hts & Hds & _ & _ & _ & Hsv) & Hst
                     & e & Hh & _).
  cbn. rewrite Hh, length_app. cbn.
  repeat split; try done. lia.
Qed.

End Lookup.

(** ** Counters *)

Lemma counter_get_set k k' v d :
  Dict.get k (Counter.set k' v d)
  = if String.eqb k k' then Some v else Dict.get k d.
Proof.
  induction d as [|[k0 v0] d IH]; cbn [Counter.set Dict.get].
  - by destruct (String.eqb k k').
  - destruct (String.eqb_spec k' k0) as [->|Hne]; cbn [Dict.get].
    + by destruct (String.eqb k k0).
    + rewrite IH. destruct (String.eqb_spec k k0) as [->|_]; [| done].
      destruct (String.eqb_spec k0 k') as [->|_]; [done | done].
Qed.

Lemma counter_keys_set k v d :
  map fst (Counter.set k v d)
  = match Dict.get k d with
    | Some _ => map fst d
    | None => map fst d ++ [k]
    end.
Proof.
  induction d as [|[k0 v0] d IH]; cbn [Counter.set Dict.get map fst app]; [done |].
  destruct (String.eqb k k0); cbn [map fst]; [done |].
  rewrite IH. by destruct (Dict.get k d).
Qed.

Lemma dict_get_None {V} k (d : list (string * V)) :
  Dict.get k d = None <-> ~ In k (map fst d).
Proof.
  induction d as [|[k0 v0] d IH]; cbn [Dict.get map fst In]; [tauto |].
  destruct (String.eqb_spec k k0) as [->|Hne].
  - split; [done | tauto].
  - rewrite IH. split; [intros H [E|E]; [congruence | done] | tauto].
Qed.

Lemma dict_get_In {V} k (v : V) (d : list (string * V)) :
  NoDup (map fst d) -> (In (k, v) d <-> Dict.get k d = Some v).
Proof.
  induction d as [|[k0 v0] d IH]; cbn [Dict.get map fst In]; [done |].
  intros Hnd. apply NoDup_cons in Hnd as [Hk0 Hnd].
  destruct (String.eqb_spec k k0) as [->|Hne].
  - split.
    + intros [[= ->] | Hin]; [done |]. exfalso. apply Hk0.
      apply list_elem_of_In, in_map_iff. by exists (k0, v).
    + intros [= ->]. by left.
  - rewrite <- (IH Hnd). split; [intros [[= ? ?] | ?]; [congruence | done] | tauto].
Qed.

Lemma counter_keys_incr_NoDup k d :
  NoDup (map fst d) -> NoDup (map fst (Counter.incr k d)).
Proof.
  intros Hnd. unfold Counter.incr. rewrite counter_keys_set.
  destruct (Dict.get k d) eqn:Hget; [done |].
  apply NoDup_app. split; [done |]. split; [| apply NoDup_singleton].
  intros k' Hk' ->%list_elem_of_singleton.
  apply dict_get_None in Hget. apply Hget. by apply list_elem_of_In.
Qed.

Lemma counter_get_le k d :
  (default 0 (Dict.get k d) <= sum_list (map snd d))%nat.
Proof.
  induction d as [|[k1 v1] d IH]; simpl; [lia |].
  destruct (String.eqb k k1); simpl; lia.
Qed.

Lemma counter_sum_set k v d :
  sum_list (map snd (Counter.set k v d))
  = (sum_list (map snd d) + v - default 0 (Dict.get k d))%nat.
Proof.
  induction d as [|[k0 v0] d IH]; simpl; [lia |].
  destruct (String.eqb k k0); simpl; [lia |].
  rewrite IH. pose proof (counter_get_le k d). lia.
Qed.

Lemma counter_sum_incr k d :
  sum_list (map snd (Counter.incr k d)) = S (sum_list (map snd d)).
Proof.
  unfold Counter.incr. rewrite counter_sum_set.
  pose proof (counter_get_le k d). lia.
Qed.

Section Tally.

Context (key : Complaint -> string).

Lemma tally_fold_get k xs d :
  Dict.get k (fold_left (fun d x => Counter.incr (key x) d) xs d)
  = match Dict.get k d with
    | Some m => Some (m + occurrences key k xs)%nat
    | None => if (occurrences key k xs =? 0)%nat then None else Some (occurrences key k xs)
    end.
Proof.
  revert d. induction xs as [|x xs IH]; intros d; cbn [fold_left].
  - unfold occurrences. cbn. destruct (Dict.get k d); [f_equal; lia | done].
  - rewrite IH. unfold Counter.incr. rewrite counter_get_set.
    unfold occurrences. cbn [List.filter].
    destruct (String.eqb_spec k (key x)) as [->|Hne].
    + rewrite String.eqb_refl. cbn [length].
      destruct (Dict.get (key x) d); simpl; f_equal; lia.
    + destruct (String.eqb_spec (key x) k) as [E|_]; [congruence |].
      done.
Qed.

Lemma tally_fold_NoDup xs d :
  NoDup (map fst d) ->
  NoDup (map fst (fold_left (fun d x => Counter.incr (key x) d) xs d)).
Proof.
  revert d. induction xs as [|x xs IH]; intros d Hnd; [done |].
  cbn [fold_left]. apply IH. by apply counter_keys_incr_NoDup.
Qed.

Lemma tally_fold_sum xs d :
  sum_list (map snd (fold_left (fun d x => Counter.incr (key x) d) xs d))
  = (sum_list (map snd d) + length xs)%nat.
Proof.
  revert d. induction xs as [|x xs IH]; intros d; cbn [fold_left length]; [lia |].
  rewrite IH, counter_sum_incr. lia.
Qed.

End Tally.

(** ** Reporting *)

Lemma tally_get (key : Complaint -> string) k cs :
  Dict.get k (Counter.tally key cs)
  = if (occurrences key k cs =? 0)%nat then None
    else Some (occurrences key k cs).
Proof. unfold Counter.tally. by rewrite tally_fold_get. Qed.

Lemma tally_NoDup (key : Complaint -> string) cs : NoDup (map fst (Counter.tally key cs)).
Proof. apply tally_fold_NoDup. constructor. Qed.

Lemma tally_sum (key : Complaint -> string) cs :
  sum_list (map snd (Counter.tally key cs)) = length cs.
Proof. unfold Counter.tally. by rewrite tally_fold_sum. Qed.

Lemma occurrences_pos (key : Complaint -> string) k cs :
  (0 < occurrences key k cs)%nat <-> exists c, In c cs /\ key c = k.
Proof.
  unfold occurrences. split.
  - intros Hlen.
    destruct (List.filter _ cs) as [|c l] eqn:E; [simpl in Hlen; lia |].
    assert (Hc : In c (List.filter (fun c => String.eqb (key c) k) cs))
      by (rewrite E; by left).
    apply filter_In in Hc as [Hc Hk]. exists c. split; [done |].
    by apply String.eqb_eq.
  - intros (c & Hc & Hk).
    assert (Hin : In c (List.filter (fun c => String.eqb (key c) k) cs))
      by (apply filter_In; split; [done | by apply String.eqb_eq]).
    destruct (List.filter _ cs); [destruct Hin | simpl; lia].
Qed.

Lemma patterns_fold d acc :
  fold_left (fun patterns entry =>
               if (3 <? snd entry)%nat
               then patterns ++ [recurring_note entry] else patterns) d acc
  = acc ++ map recurring_note (List.filter (fun e => (3 <? snd e)%nat) d).
Proof.
  revert acc. induction d as [|e d IH]; intros acc; cbn [fold_left List.filter].
  - by rewrite app_nil_r.
  - rewrite IH. destruct (3 <? snd e)%nat; [| done].
    cbn [map]. by rewrite <- app_assoc.
Qed.

Lemma filter_keys_NoDup (p : string * nat -> bool) d :
  NoDup (map fst d) -> NoDup (map fst (List.filter p d)).
Proof.
  induction d as [|e d IH]; cbn [List.filter map]; [done |].
  intros [Hk Hnd]%NoDup_cons. destruct (p e); [| by apply IH].
  cbn [map]. apply NoDup_cons. split; [| by apply IH].
  intros Hin. apply Hk. apply list_elem_of_In in Hin.
  apply in_map_iff in Hin as (e' & He' & Hin). apply filter_In in Hin as [Hin _].
  apply list_elem_of_In, in_map_iff. by exists e'.
Qed.

Section ReportingProperties.

Context {rt : Runtime}.

Lemma generate_eq σ :
  generate_system_recommendations σ
  = (Ok {| r_timestamp := isoformat (reading (clock_reads σ));
           total_complaints := length (complaints σ);
           by_severity := Counter.tally c_severity (complaints σ);
           by_type := Counter.tally c_type (complaints σ);
           recent_patterns :=
             map recurring_note
               (List.filter (fun e => (3 <? snd e)%nat)
                  (Counter.tally c_type (complaints σ)));
           suggested_actions :=
             (if (0 <? occurrences c_severity "critical" (complaints σ))%nat
              then [urgent_action] else [])
             ++ (if (10 <? length (complaints σ))%nat
                 then [volume_action] else []) |},
     tick σ).
Proof.
  unfold generate_system_recommendations. run. cbn [complaints tick].
  rewrite patterns_fold, tally_get. cbn [app]. unfold reading.
  destruct (occurrences c_severity "critical" (complaints σ)) as [|n];
    destruct (10 <? length (complaints σ))%nat; reflexivity.
Qed.

(** X5: the report counts every record once under its severity and once
    under its type: each counter is the number of records carrying that
    value (a value no record carries has no entry), no key is repeated,
    both dictionaries sum to the total, which is the size of the store;
    the call reads the clock once and changes nothing else. *)
Theorem recommendations_counts σ :
  exists r,
    generate_system_recommendations σ = (Ok r, tick σ)
    /\ total_complaints r = length (complaints σ)
    /\ (forall k, Dict.get k (by_severity r)
                  = if (occurrences c_severity k (complaints σ) =? 0)%nat
                    then None
                    else Some (occurrences c_severity k (complaints σ)))
    /\ (forall k, Dict.get k (by_type r)
                  = if (occurrences c_type k (complaints σ) =? 0)%nat
                    then None
                    else Some (occurrences c_type k (complaints σ)))
    /\ NoDup (map fst (by_severity r)) /\ NoDup (map fst (by_type r))
    /\ sum_list (map snd (by_severity r)) = total_complaints r
    /\ sum_list (map snd (by_type r)) = total_complaints r.
Proof.
  eexists. split; [apply generate_eq |].
  cbn [total_complaints by_severity by_type].
  split; [done |]. split; [intros k; apply tally_get |].
  split; [intros k; apply tally_get |].
  split; [apply tally_NoDup |]. split; [apply tally_NoDup |].
  split; apply tally_sum.
Qed.

(** X6: the urgent action is suggested exactly when some record has
    severity "critical", the volume action exactly when the store holds
    more than 10 records, and the urgent one comes first. *)
Theorem recommendations_actions σ :
  exists r,
    generate_system_recommendations σ = (Ok r, tick σ)
    /\ suggested_actions r
       = (if existsb (fun c => String.eqb (c_severity c) "critical") (complaints σ)
          then [urgent_action] else [])
         ++ (if (10 <? length (complaints σ))%nat then [volume_action] else [])
    /\ (In urgent_action (suggested_actions r)
        <-> exists c, In c (complaints σ) /\ c_severity c = "critical")
    /\ (In volume_action (suggested_actions r)
        <-> (10 < length (complaints σ))%nat).
Proof.
  eexists. split; [apply generate_eq |]. cbn [suggested_actions].
  assert (Hcrit : (0 <? occurrences c_severity "critical" (complaints σ))%nat
                  = existsb (fun c => String.eqb (c_severity c) "critical")
                            (complaints σ)).
  { apply eq_true_iff_eq.
    rewrite Nat.ltb_lt, occurrences_pos, existsb_exists.
    split; intros (c & Hc & Hs); exists c; (split; [done |]);
      by apply String.eqb_eq. }
  rewrite Hcrit. split; [done |]. split.
  - rewrite <- (occurrences_pos c_severity), <- Nat.ltb_lt, Hcrit.
    destruct (existsb _ _), (10 <? length (complaints σ))%nat;
      unfold urgent_action, volume_action; cbn; intuition congruence.
  - rewrite <- Nat.ltb_lt.
    destruct (existsb _ _), (10 <? length (complaints σ))%nat;
      unfold urgent_action, volume_action; cbn; intuition congruence.
Qed.

(** X7: the recurring-pattern notes are one per type that more than 3
    records carry, for those types only, each built from the type and its
    count, in the order of the type counters. *)
Theorem recommendations_patterns σ :
  exists r flagged,
    generate_system_recommendations σ = (Ok r, tick σ)
    /\ recent_patterns r = map recurring_note flagged
    /\ flagged = List.filter (fun e => (3 <? snd e)%nat) (by_type r)
    /\ NoDup (map fst flagged)
    /\ (forall t n, In (t, n) flagged
          <-> n = occurrences c_type t (complaints σ) /\ (3 < n)%nat).
Proof.
  eexists. eexists. split; [apply generate_eq |].
  cbn [recent_patterns by_type]. split; [reflexivity |]. split; [reflexivity |].
  split; [apply filter_keys_NoDup, tally_NoDup |].
  intros t n. rewrite filter_In. cbn [snd]. rewrite Nat.ltb_lt.
  rewrite (dict_get_In t n _ (tally_NoDup c_type (complaints σ))), tally_get.
  destruct (Nat.eqb_spec (occurrences c_type t (complaints σ)) 0) as [E|E].
  - split; [intros [[=] _] | intros [-> H]; lia].
  - split; [intros [[= <-] H]; by split | intros [-> H]; by split].
Qed.

End ReportingProperties.

(** ** Encoding, once more *)

Lemma all_some_inv {A B} (f : A -> option B) xs ys :
  Dict.all_some f xs = Some ys -> Forall (fun x => is_Some (f x)) xs.
Proof.
  revert ys. induction xs as [|x xs IH]; intros ys; [constructor |].
  cbn [Dict.all_some]. destruct (f x) as [y|] eqn:Hy; [| done].
  destruct (Dict.all_some f xs) as [ys'|]; [| done].
  intros _. constructor; [by eexists | by eapply IH].
Qed.

(** The encoder accepts no other value than those [encodable] lets through. *)
Lemma encode_encodable v : is_Some (Json.encode v) -> encodable v = true.
Proof.
  induction v as [ | b | n | x | s | xs IH | kvs IH | class ]
    using PyVal_nested_ind; cbn [encodable]; try done.
  - rewrite encode_list. intros [j Hj].
    destruct (Dict.all_some Json.encode xs) as [js|] eqn:Hjs; [| done].
    apply all_some_inv in Hjs. apply forallb_forall. intros x Hx.
    apply list_elem_of_In in Hx.
    apply (proj1 (Forall_forall _ _) IH x Hx).
    apply (proj1 (Forall_forall _ _) Hjs x Hx).
  - rewrite encode_dict. intros [j Hj].
    destruct (Dict.all_some _ kvs) as [js|] eqn:Hjs; [| done].
    apply all_some_inv in Hjs. apply forallb_forall. intros [k x] Hx.
    apply list_elem_of_In in Hx. cbn [snd].
    apply (proj1 (Forall_forall _ _) IH (k, x) Hx).
    destruct (proj1 (Forall_forall _ _) Hjs (k, x) Hx) as [y Hy].
    cbn [fst snd] in Hy |- *. destruct (Json.encode x); [by eexists | done].
  - by intros [j Hj].
Qed.

Lemma encode_None v : encodable v = false -> Json.encode v = None.
Proof.
  intros Hv. destruct (Json.encode v) as [j|] eqn:Hj; [| done].
  rewrite encode_encodable in Hv; [done | by eexists].
Qed.

Lemma encodable_complaint_context c :
  encodable (PyDict (c_context c)) = false ->
  encodable (Dict.of_complaint c) = false.
Proof.
  unfold Dict.of_complaint. cbn [encodable app forallb snd].
  intros ->. by rewrite !andb_false_r.
Qed.

Lemma encodable_complaints_app cs r :
  encodable (Dict.of_complaint r) = false ->
  encodable (Dict.of_complaints (cs ++ [r])) = false.
Proof.
  intros Hr. cbn [Dict.of_complaints encodable].
  rewrite map_app, forallb_app. cbn [map forallb]. rewrite Hr.
  by rewrite andb_false_r.
Qed.

(** ** Persistence, once more *)

Lemma set_complaints_same σ : set_complaints (complaints σ) σ = σ.
Proof. by destruct σ. Qed.


(** A save that the encoder aborts leaves a file that loads as an empty
    store. *)
Lemma save_aborted σ :
  files σ !! storage_path σ <> Some NoAccess ->
  encodable (Dict.of_complaints (complaints σ)) = false ->
  let σ' := snd (save_complaints σ) in
  files σ' !! storage_path σ' = Some (File Malformed)
  /\ stdout σ' = stdout σ ++ [ErrorSaving TypeError]
  /\ load_complaints σ'
     = Some (Ok tt, set_complaints [] (print (ErrorLoading ValueError) σ')).
Proof.
  intros Hacc Henc. rewrite save_complaints_cases. cbn [snd].
  rewrite (encode_None _ Henc).
  assert (Hsaved :
            match files σ !! storage_path σ with
            | Some NoAccess => print (ErrorSaving OSError) σ
            | _ => print (ErrorSaving TypeError)
                     (set_files (<[storage_path σ := File Malformed]> (files σ)) σ)
            end
            = print (ErrorSaving TypeError)
                (set_files (<[storage_path σ := File Malformed]> (files σ)) σ)).
  { by destruct (files σ !! storage_path σ) as [[?|]|]. }
  rewrite Hsaved. cbn zeta. unfold load_complaints, json_load.
  cbn [print set_files storage_path files stdout].
  rewrite lookup_insert_eq. by repeat split.
Qed.

Section PersistenceProperties.

Context {rt : Runtime}.

(** The state [log_complaint] returns in is the one its final save leaves. *)
Lemma log_complaint_state ty sev desc ctx md σ i σ' :
  log_complaint ty sev desc ctx md σ = (Ok i, σ') ->
  exists s, σ' = snd (save_complaints s)
            /\ files s = files σ /\ storage_path s = storage_path σ
            /\ stdout s = stdout σ.
Proof.
  unfold log_complaint. run. cbn [draw uuid_draws agent_id clock_reads].
  destruct (self_evaluate _ _) as [[ev|e] σ1] eqn:Hev; [| discriminate].
  assert (exists n, σ1 = advance n (draw σ)) as [n ->].
  { match type of Hev with
    | self_evaluate ?c ?s = _ =>
        destruct (find_similar_complaints c (tick s)) as [[sim|e] σ2] eqn:Hsim
    end.
    - destruct (find_similar_complaints_advance _ _ _ _ Hsim) as [m ->].
      apply self_evaluate_ok in Hsim as (ev' & Hev').
      rewrite Hev' in Hev. injection Hev as _ <-.
      exists (S (S m)). by rewrite !advance_tick.
    - apply self_evaluate_raises in Hsim. rewrite Hsim in Hev. discriminate. }
  destruct (severity_in_critical_high sev); cbn;
    match goal with
    | |- context [save_complaints ?s] =>
        destruct (save_complaints_frame s) as (σ2 & Hs & _);
        intros H; exists s; rewrite Hs in H |- *
    end; injection H as _ <-; by repeat split.
Qed.



(** X11: one context that JSON cannot express costs the whole file.  When
    [log_complaint] returns for such a context (the path being one that
    can be opened), the new record is in memory, a diagnostic has been
    printed, the backing file is left unfinished, and loading it yields an
    empty store: the records persisted before are gone from the disk. *)
Theorem unserialisable_context_empties_file ty sev desc ctx md σ i σ' :
  files σ !! storage_path σ <> Some NoAccess ->
  encodable (PyDict ctx) = false ->
  log_complaint ty sev desc ctx md σ = (Ok i, σ') ->
  length (complaints σ') = S (length (complaints σ))
  /\ stdout σ' = stdout σ ++ [ErrorSaving TypeError]
  /\ files σ' !! storage_path σ' = Some (File Malformed)
  /\ exists σ'', load_complaints σ' = Some (Ok tt, σ'')
                 /\ complaints σ'' = [].
Proof.
  intros Hacc Hctx H. pose proof H as Hst.
  apply log_complaint_inv in H as (ev & n & r & _ & _ & Hr & Hcs).
  apply log_complaint_state in Hst as (s & -> & Hf & Hp & Hout).
  destruct (save_complaints_frame s) as (σ2 & Hs & _ & _ & Hcs2 & _).
  rewrite Hs in Hcs |- *. cbn [snd] in *.
  assert (Henc : encodable (Dict.of_complaints (complaints s)) = false).
  { rewrite <- Hcs2, Hcs. apply encodable_complaints_app.
    apply encodable_complaint_context. rewrite Hr.
    by destruct (severity_in_critical_high sev). }
  destruct (save_aborted s) as (Hfile & Hprint & Hload);
    [by rewrite Hf, Hp | exact Henc |].
  rewrite Hs in Hfile, Hprint, Hload. cbn [snd] in *.
  split; [rewrite Hcs, length_app; cbn; lia |].
  split; [by rewrite Hprint, Hout |]. split; [exact Hfile |].
  eexists. split; [exact Hload | reflexivity].
Qed.

End PersistenceProperties.

(** ** Export *)

Lemma encodable_recommendations r : encodable (recommendations_dict r) = true.
Proof.
  unfold recommendations_dict. cbn [encodable forallb snd andb].
  assert (Hc : forall d : list (string * nat),
             forallb (fun kv => encodable (snd kv))
               (map (fun kv => (fst kv, PyInt (Z.of_nat (snd kv)))) d) = true).
  { intros d. apply forallb_forall. intros kv Hkv.
    by apply in_map_iff in Hkv as (? & <- & _). }
  assert (Hs : forall l, forallb encodable (map PyStr l) = true).
  { intros l. apply forallb_forall. intros v Hv.
    by apply in_map_iff in Hv as (? & <- & _). }
  by rewrite !Hc, !Hs.
Qed.

Section ExportProperties.

Context {rt : Runtime}.

(** The report of a store in state [σ], given its summary. *)
Lemma audit_report_eq σ :
  exists summary,
    generate_system_recommendations (tick σ) = (Ok summary, tick (tick σ))
    /\ audit_report σ
       = (Ok (PyDict [("agent_id", PyStr (agent_id σ));
                      ("report_generated",
                       PyStr (isoformat (reading (clock_reads σ))));
                      ("summary", recommendations_dict summary);
                      ("complaints", Dict.of_complaints (complaints σ))]),
          tick (tick σ)).
Proof.
  eexists. split; [apply generate_eq |].
  unfold audit_report. run. by rewrite generate_eq.
Qed.

Lemma export_for_audit_cases output_path σ :
  exists report,
    audit_report σ = (Ok report, tick (tick σ))
    /\ encodable report = encodable (Dict.of_complaints (complaints σ))
    /\ export_for_audit output_path σ
       = match files σ !! output_path with
         | Some NoAccess => (Ok (false, Some OSError), tick (tick σ))
         | _ =>
             match Json.encode report with
             | Some j =>
                 (Ok (true, None),
                  set_files (<[output_path := File (Document j)]> (files σ))
                            (tick (tick σ)))
             | None =>
                 (Ok (false, Some TypeError),
                  set_files (<[output_path := File Malformed]> (files σ))
                            (tick (tick σ)))
             end
         end.
Proof.
  destruct (audit_report_eq σ) as (summary & _ & Hrep).
  eexists. split; [exact Hrep |]. split.
  - cbn [encodable forallb snd andb].
    change (forallb (fun kv => encodable kv.2) ?d) with (encodable (PyDict d)).
    fold (recommendations_dict summary).
    rewrite encodable_recommendations. cbn [andb]. by rewrite andb_true_r.
  - unfold export_for_audit. run. rewrite Hrep.
    unfold open_w, json_dump. cbn [tick files].
    destruct (files σ !! output_path) as [[content|]|];
      try reflexivity;
      destruct (Json.encode _); cbn [modify set_files files tick];
      unfold modify; cbn; by rewrite ?insert_insert_eq.
Qed.


(** X9: otherwise [export_for_audit] returns [False] and raises nothing.
    A target that cannot be opened is left as it was; a record that JSON
    cannot express leaves the target unfinished, whatever it held
    before.  The records in memory are untouched either way. *)
Theorem export_for_audit_failure output_path σ :
  files σ !! output_path = Some NoAccess
  \/ encodable (Dict.of_complaints (complaints σ)) = false ->
  exists e σ',
    export_for_audit output_path σ = (Ok (false, Some e), σ')
    /\ complaints σ' = complaints σ /\ stdout σ' = stdout σ
    /\ match files σ !! output_path with
       | Some NoAccess => e = OSError /\ files σ' = files σ
       | _ => e = TypeError
              /\ files σ' = <[output_path := File Malformed]> (files σ)
       end.
Proof.
  intros Hfail.
  destruct (export_for_audit_cases output_path σ) as (report & Hrep & Hre & Hrun).
  rewrite Hrun. clear Hrun.
  destruct (files σ !! output_path) as [[content|]|] eqn:Hf;
    try (by eexists _, _);
    (destruct Hfail as [Hfail | Hfail]; [discriminate Hfail |]);
    rewrite Hfail in Hre; rewrite (encode_None _ Hre); by eexists _, _.
Qed.

End ExportProperties.

(** ** What the two mutating calls can do to the store *)

Section Outcomes.

Context {rt : Runtime}.

(** After [log_complaint], returned or raised: the store is what it was, or
    it has one more record, of the shape the method builds. *)
Lemma log_complaint_outcome ty sev desc ctx md σ :
  let σ' := snd (log_complaint ty sev desc ctx md σ) in
  uuid_draws σ' = S (uuid_draws σ)
  /\ agent_id σ' = agent_id σ
  /\ (complaints σ' = complaints σ
      \/ exists ev e,
           complaints σ'
           = complaints σ
             ++ [if severity_in_critical_high sev
                 then append_escalation e
                        (set_status "escalated"
                           (set_self_evaluation ev
                              (logged_record ty sev desc ctx md σ)))
                 else set_self_evaluation ev (logged_record ty sev desc ctx md σ)]).
Proof.
  cbn zeta.
  destruct (log_complaint ty sev desc ctx md σ) as [[i|e] σ'] eqn:H; cbn [snd].
  - pose proof H as Hst.
    apply log_complaint_inv in H as (ev & n & r & _ & _ & -> & Hcs).
    split; [| split; [| right; by eexists _, _]]; revert Hst;
      unfold log_complaint; run; cbn [draw uuid_draws agent_id clock_reads];
      (destruct (self_evaluate _ _) as [[ev'|e'] σ1] eqn:Hev; [| discriminate]);
      (assert (exists n, σ1 = advance n (draw σ)) as [m ->];
       [ match type of Hev with
         | self_evaluate ?c ?s = _ =>
             destruct (find_similar_complaints c (tick s)) as [[sim|e2] σ2] eqn:Hsim
         end;
         [ destruct (find_similar_complaints_advance _ _ _ _ Hsim) as [m ->];
           apply self_evaluate_ok in Hsim as (ev2 & Hev2);
           rewrite Hev2 in Hev; injection Hev as _ <-;
           exists (S (S m)); by rewrite !advance_tick
         | apply self_evaluate_raises in Hsim; rewrite Hsim in Hev; discriminate ]
       |]);
      destruct (severity_in_critical_high sev); cbn;
      match goal with
      | |- context [save_complaints ?s] =>
          destruct (save_complaints_frame s) as (σ2 & Hs & Ha & _ & _ & _ & Hd)
      end; rewrite Hs; intros [= _ <-]; by rewrite ?Ha, ?Hd.
  - revert H. unfold log_complaint. run.
    destruct (self_evaluate _ _) as [[ev|e'] σ1] eqn:Hev.
    + destruct (severity_in_critical_high sev); cbn;
        match goal with
        | |- context [save_complaints ?s] =>
            destruct (save_complaints_frame s) as (σ2 & Hs & _)
        end; rewrite Hs; discriminate.
    + intros [= _ <-].
      match type of Hev with
      | self_evaluate ?c ?s = _ =>
          destruct (find_similar_complaints c (tick s)) as [[sim|e2] σ2] eqn:Hsim
      end.
      * apply self_evaluate_ok in Hsim as (ev' & Hev'). congruence.
      * destruct (find_similar_complaints_advance _ _ _ _ Hsim) as [m ->].
        apply self_evaluate_raises in Hsim. rewrite Hsim in Hev.
        injection Hev as _ <-. split; [done |]. split; [done |]. by left.
Qed.

(** After [escalate_complaint]: the store is what it was, or one record has
    been escalated in place. *)
Lemma escalate_complaint_outcome complaint_id reason escalated_to σ :
  let σ' := snd (escalate_complaint complaint_id reason escalated_to σ) in
  uuid_draws σ' = uuid_draws σ
  /\ agent_id σ' = agent_id σ
  /\ (complaints σ' = complaints σ
      \/ exists k c e,
           complaints σ !! k = Some c
           /\ complaints σ'
              = <[k := append_escalation e (set_status "escalated" c)]>
                  (complaints σ)).
Proof.
  cbn zeta. unfold escalate_complaint. run.
  destruct (existsb (fun c => String.eqb (c_id c) complaint_id) (complaints σ))
    eqn:E.
  - apply existsb_exists in E as (c0 & Hin & Hid).
    apply String.eqb_eq in Hid.
    destruct (escalate_loop_hit complaint_id reason escalated_to
                (complaints σ) 0 σ c0 Hin Hid)
      as (k & c & e & σ' & Hk & _ & _ & _ & Hrun & Hsame).
    destruct Hsame as (Ha & _ & Hcs & _ & Hd). cbn in Hcs, Ha, Hd.
    rewrite Hrun. cbn [snd]. split; [done |]. split; [done |].
    right. by exists k, c, e.
  - rewrite escalate_loop_miss; [split; [done |]; split; [done |]; by left |].
    intros c Hin Hid.
    assert (existsb (fun c => String.eqb (c_id c) complaint_id) (complaints σ)
            = true); [| congruence].
    apply existsb_exists. exists c. split; [done |]. by apply String.eqb_eq.
Qed.

(** A property of records that the two shapes above establish and keep
    holds all along a sequence of calls. *)
Lemma run_calls_preserve (P : Complaint -> Prop) a σ calls :
  agent_id σ = a ->
  (forall ty sev desc ctx md s ev,
      agent_id s = a ->
      P (set_self_evaluation ev (logged_record ty sev desc ctx md s))) ->
  (forall c e, P c -> P (append_escalation e (set_status "escalated" c))) ->
  Forall P (complaints σ) ->
  Forall P (complaints (run_calls σ calls)).
Proof.
  intros Ha Hnew Hesc. revert σ Ha.
  induction calls as [|call calls IH]; intros σ Ha Hinv; [done |].
  cbn [run_calls fold_left].
  destruct call as [ty sev desc ctx md | i reason to]; cbn [run_call].
  - destruct (log_complaint_outcome ty sev desc ctx md σ)
      as (_ & Hag & Hcs).
    apply IH; [by rewrite Hag |].
    destruct Hcs as [-> | (ev & e & ->)]; [done |].
    apply Forall_app. split; [done |]. constructor; [| constructor].
    destruct (severity_in_critical_high sev); [apply Hesc |]; by apply Hnew.
  - destruct (escalate_complaint_outcome i reason to σ)
      as (_ & Hag & Hcs).
    apply IH; [by rewrite Hag |].
    destruct Hcs as [-> | (k & c & e & Hk & ->)]; [done |].
    apply Forall_insert; [done |]. apply Hesc.
    by apply (proj1 (Forall_lookup _ _) Hinv k c).
Qed.

(** X12: in a store built from an empty one by [log_complaint] and
    [escalate_complaint], a record is "escalated" exactly when its history
    is not empty and "logged" exactly when it is empty; every record
    carries its self-evaluation, a severity and a type of the
    enumerations, and the agent identifier of the instance. *)
Theorem reachable_records_consistent σ calls :
  complaints σ = [] ->
  forall c, In c (complaints (run_calls σ calls)) ->
    written_by_store c /\ c_agent_id c = agent_id σ.
Proof.
  intros Hempty c Hin.
  eapply (proj1 (List.Forall_forall
                   (fun c => written_by_store c /\ c_agent_id c = agent_id σ) _));
    [| exact Hin].
  apply (run_calls_preserve _ (agent_id σ)); [done | | | rewrite Hempty; constructor].
  - intros ty sev desc ctx md s ev Hs. unfold written_by_store. cbn.
    split; [| done].
    split; [split; [discriminate | done] |]. split; [done |].
    split; [by eexists |]. split; by eexists.
  - intros c0 e ((_ & _ & Hev & Hsev & Hty) & Hag). unfold written_by_store. cbn.
    split; [| done].
    split; [split; [intros _; by destruct (c_escalation_history c0) | done] |].
    split; [split; [discriminate | by destruct (c_escalation_history c0)] |].
    done.
Qed.

End Outcomes.

(** ** Records only move forward *)

Lemma moved_forward_refl c : moved_forward c c.
Proof. split; [by repeat split |]. by split. Qed.

Lemma moved_forward_trans c1 c2 c3 :
  moved_forward c1 c2 -> moved_forward c2 c3 -> moved_forward c1 c3.
Proof.
  intros (Hid & Hh & Hst) (Hid' & Hh' & Hst').
  split; [| split; [by etrans | auto]].
  destruct Hid as (? & ? & ? & ? & ? & ? & ? & ? & ?).
  destruct Hid' as (? & ? & ? & ? & ? & ? & ? & ? & ?).
  repeat split; congruence.
Qed.

Lemma moved_forward_escalated c e :
  moved_forward c (append_escalation e (set_status "escalated" c)).
Proof.
  split; [by repeat split |]. split; [by exists [e] | done].
Qed.

Section Forward.

Context {rt : Runtime}.

Lemma run_call_forward σ call k c :
  complaints σ !! k = Some c ->
  exists c', complaints (run_call σ call) !! k = Some c' /\ moved_forward c c'.
Proof.
  intros Hk. destruct call as [ty sev desc ctx md | i reason to]; cbn [run_call].
  - destruct (log_complaint_outcome ty sev desc ctx md σ)
      as (_ & _ & [-> | (ev & e & ->)]).
    + exists c. split; [done | apply moved_forward_refl].
    + exists c. split; [| apply moved_forward_refl].
      rewrite lookup_app_l; [done | by eapply lookup_lt_Some].
  - destruct (escalate_complaint_outcome i reason to σ)
      as (_ & _ & [-> | (k0 & c0 & e & Hk0 & ->)]).
    + exists c. split; [done | apply moved_forward_refl].
    + destruct (decide (k = k0)) as [->|Hne].
      * assert (c0 = c) as -> by congruence.
        eexists. split; [| apply moved_forward_escalated].
        apply list_lookup_insert_eq. by eapply lookup_lt_Some.
      * exists c. split; [| apply moved_forward_refl].
        by rewrite list_lookup_insert_ne.
Qed.

(** X13: whatever calls of [log_complaint] and [escalate_complaint] follow,
    a stored record keeps its place in the store, its identifier, agent,
    type, severity, timestamp, description, context, metadata and
    evaluation; its escalation history only gets longer at the end, and
    once "escalated" it stays so.  No record is ever removed. *)
Theorem records_only_move_forward σ calls k c :
  complaints σ !! k = Some c ->
  exists c',
    complaints (run_calls σ calls) !! k = Some c' /\ moved_forward c c'.
Proof.
  revert σ c. induction calls as [|call calls IH]; intros σ c Hk.
  - exists c. split; [done | apply moved_forward_refl].
  - cbn [run_calls fold_left].
    destruct (run_call_forward σ call k c Hk) as (c1 & Hk1 & Hf1).
    destruct (IH _ _ Hk1) as (c2 & Hk2 & Hf2).
    exists c2. split; [exact Hk2 | by eapply moved_forward_trans].
Qed.

Lemma run_call_ids σ call :
  (forall m n, uuid4 m = uuid4 n -> m = n) ->
  ids_fresh σ -> ids_fresh (run_call σ call).
Proof.
  intros Hinj [Hnd Hdrawn].
  destruct call as [ty sev desc ctx md | i reason to]; cbn [run_call].
  - destruct (log_complaint_outcome ty sev desc ctx md σ)
      as (Hd & _ & Hcs).
    assert (Hold : Forall (fun i => exists n,
                             (n < S (uuid_draws σ))%nat /\ i = uuid4 n)
                          (map c_id (complaints σ))).
    { eapply Forall_impl; [exact Hdrawn |].
      intros i (n & Hn & ->). exists n. split; [lia | done]. }
    unfold ids_fresh. rewrite Hd.
    destruct Hcs as [-> | (ev & e & ->)]; [done |].
    rewrite map_app. cbn [map]. rewrite logged_id. split.
    + apply NoDup_app. split; [done |]. split; [| apply NoDup_singleton].
      intros i Hi ->%list_elem_of_singleton.
      destruct (proj1 (Forall_forall _ _) Hdrawn _ Hi) as (n & Hn & Heq).
      apply Hinj in Heq. lia.
    + apply Forall_app. split; [done |]. constructor; [| constructor].
      exists (uuid_draws σ). split; [lia | done].
  - destruct (escalate_complaint_outcome i reason to σ)
      as (Hd & _ & Hcs).
    unfold ids_fresh. rewrite Hd.
    destruct Hcs as [-> | (k & c & e & Hk & ->)]; [done |].
    assert (Hids : map c_id (<[k := append_escalation e (set_status "escalated" c)]>
                               (complaints σ))
                   = map c_id (complaints σ)).
    { change (map c_id ?l) with (c_id <$> l).
      rewrite list_fmap_insert. apply list_insert_id.
      by rewrite list_lookup_fmap, Hk. }
    by rewrite Hids.
Qed.

Lemma run_calls_ids σ calls :
  (forall m n, uuid4 m = uuid4 n -> m = n) ->
  ids_fresh σ -> ids_fresh (run_calls σ calls).
Proof.
  intros Hinj. revert σ. induction calls as [|call calls IH]; intros σ H0;
    [done |].
  cbn [run_calls fold_left]. apply IH. by apply run_call_ids.
Qed.

(** X14: if [uuid4] never draws the same identifier twice, the records of
    a store built from an empty one have pairwise different identifiers,
    each of them one of the identifiers drawn. *)
Theorem identifiers_unique σ calls :
  (forall m n, uuid4 m = uuid4 n -> m = n) ->
  complaints σ = [] ->
  ids_fresh (run_calls σ calls).
Proof.
  intros Hinj Hempty. apply run_calls_ids; [exact Hinj |].
  unfold ids_fresh. rewrite Hempty. split; constructor.
Qed.

End Forward.

(** ** The similarity scan, whatever the clock does *)

Section Scan.

Context {rt : Runtime}.

Lemma find_similar_loop_sublist ty cs similar σ r σ' :
  find_similar_loop ty cs similar σ = (r, σ') ->
  exists n,
    (n <= occurrences c_type ty cs)%nat /\ σ' = advance n σ
    /\ forall found, r = Ok found ->
         exists extra,
           found = similar ++ extra
           /\ extra `sublist_of`
                List.filter (fun c => String.eqb (c_type c) ty) cs.
Proof.
  unfold occurrences.
  revert similar σ. induction cs as [|c cs IH]; intros similar σ.
  - cbn. intros [= <- <-]. exists 0%nat. split; [lia |].
    split; [by rewrite advance_0 |]. intros found [= <-].
    exists []. by rewrite app_nil_r.
  - cbn [find_similar_loop List.filter].
    destruct (String.eqb (c_type c) ty); [| apply IH].
    unfold bind at 1. rewrite similar_try. cbn [length].
    destruct (c_timestamp c) as [| | | |s| | |];
      try (intros [= <- <-]; exists 0%nat; split; [lia |];
           split; [by rewrite advance_0 | done]).
    destruct (fromisoformat s).
    + intros H. apply IH in H as (n & Hn & -> & Hfound).
      exists (S n). split; [lia |]. split; [apply advance_tick |].
      intros found Hr. destruct (Hfound found Hr) as (extra & -> & Hsub).
      destruct (spec_recent _ c).
      * exists (c :: extra). split; [by rewrite <- app_assoc |].
        by apply sublist_skip.
      * exists extra. split; [done |]. by apply sublist_cons.
    + intros H. apply IH in H as (n & Hn & -> & Hfound).
      exists n. split; [lia |]. split; [done |].
      intros found Hr. destruct (Hfound found Hr) as (extra & -> & Hsub).
      exists extra. split; [done |]. by apply sublist_cons.
Qed.

(** X15: [find_similar_complaints] only reads: whether it returns or
    raises, the state differs by clock readings alone, at most one per
    stored record of the candidate's type; and what it returns is a
    selection of those records, in stored order, without repetition of a
    position. *)
Theorem find_similar_complaints_selects cand σ r σ' :
  find_similar_complaints cand σ = (r, σ') ->
  exists n,
    (n <= occurrences c_type (c_type cand) (complaints σ))%nat
    /\ σ' = advance n σ
    /\ forall found, r = Ok found ->
         found `sublist_of`
           List.filter (fun c => String.eqb (c_type c) (c_type cand))
                       (complaints σ).
Proof.
  unfold find_similar_complaints. run. intros H.
  apply find_similar_loop_sublist in H as (n & Hn & -> & Hfound).
  exists n. split; [done |]. split; [done |].
  intros found Hr. by destruct (Hfound found Hr) as (extra & -> & Hsub).
Qed.

Lemma find_similar_loop_window ty cs similar σ found σ' :
  find_similar_loop ty cs similar σ = (Ok found, σ') ->
  exists extra,
    found = similar ++ extra
    /\ (forall c, In c extra ->
          In c cs /\ c_type c = ty
          /\ exists k, (clock_reads σ <= k < clock_reads σ')%nat
                       /\ recent_at k c = true)
    /\ (forall c, In c cs -> c_type c = ty ->
          (forall k, (clock_reads σ <= k)%nat -> recent_at k c = true) ->
          In c extra).
Proof.
  revert similar σ. induction cs as [|c cs IH]; intros similar σ.
  - cbn. intros [= <- <-]. exists []. rewrite app_nil_r.
    split; [done |]. split; [intros c [] | intros c []].
  - cbn [find_similar_loop].
    destruct (String.eqb_spec (c_type c) ty) as [Hty|Hty].
    + unfold bind at 1. rewrite similar_try.
      destruct (c_timestamp c) as [| | | |s| | |] eqn:Hts; try discriminate.
      destruct (fromisoformat s) as [d|] eqn:Hd.
      * intros H. pose proof H as Hadv.
        apply find_similar_loop_advance in Hadv as [n Hadv].
        apply IH in H as (extra & -> & Hin & Hall).
        assert (Hreads : (S (clock_reads σ) <= clock_reads σ')%nat)
          by (rewrite Hadv; cbn; lia).
        destruct (spec_recent (utcnow (clock_reads σ)) c) eqn:Hrec.
        -- exists (c :: extra). split; [by rewrite <- app_assoc |]. split.
           ++ intros c' [<- | Hc'].
              ** split; [by left |]. split; [done |].
                 exists (clock_reads σ). split; [lia | exact Hrec].
              ** destruct (Hin c' Hc') as (? & ? & k & Hk & ?).
                 split; [by right |]. split; [done |].
                 exists k. cbn in Hk. split; [lia | done].
           ++ intros c' [<- | Hc'] Hty' Hk; [by left |].
              right. apply Hall; [done | done |].
              intros k Hk'. apply Hk. cbn in Hk'. lia.
        -- exists extra. split; [done |]. split.
           ++ intros c' Hc'. destruct (Hin c' Hc') as (? & ? & k & Hk & ?).
              split; [by right |]. split; [done |].
              exists k. cbn in Hk. split; [lia | done].
           ++ intros c' [<- | Hc'] Hty' Hk.
              ** specialize (Hk (clock_reads σ) (Nat.le_refl _)).
                 unfold recent_at in Hk. congruence.
              ** apply Hall; [done | done |].
                 intros k Hk'. apply Hk. cbn in Hk'. lia.
      * intros H. apply IH in H as (extra & -> & Hin & Hall).
        exists extra. split; [done |]. split.
        -- intros c' Hc'. destruct (Hin c' Hc') as (? & ? & ?).
           split; [by right | done].
        -- intros c' [<- | Hc'] Hty' Hk; [| by apply Hall].
           specialize (Hk (clock_reads σ) (Nat.le_refl _)).
           unfold recent_at, spec_recent in Hk. by rewrite Hts, Hd in Hk.
    + intros H. apply IH in H as (extra & -> & Hin & Hall).
      exists extra. split; [done |]. split.
      * intros c' Hc'. destruct (Hin c' Hc') as (? & ? & ?).
        split; [by right | done].
      * intros c' [<- | Hc'] Hty' Hk; [done | by apply Hall].
Qed.

(** X16: with a clock that keeps running during the call, every record
    returned was, at one of the readings taken during the call, a stored
    record of the candidate's type with a timestamp that parses and lies
    less than 86400 seconds back; and a stored record of that type that is
    so at every reading from the start of the call on is returned.  A
    timestamp in the future is inside the window. *)
Theorem find_similar_complaints_window cand σ found σ' :
  find_similar_complaints cand σ = (Ok found, σ') ->
  (forall c, In c found ->
     In c (complaints σ) /\ c_type c = c_type cand
     /\ exists k, (clock_reads σ <= k < clock_reads σ')%nat
                  /\ recent_at k c = true)
  /\ (forall c, In c (complaints σ) -> c_type c = c_type cand ->
        (forall k, (clock_reads σ <= k)%nat -> recent_at k c = true) ->
        In c found)
  /\ (forall c s d,
        In c (complaints σ) -> c_type c = c_type cand ->
        c_timestamp c = PyStr s -> fromisoformat s = Some d ->
        (forall k, utcnow k <= Datetime.instant d) ->
        In c found).
Proof.
  unfold find_similar_complaints. run. intros H.
  apply find_similar_loop_window in H as (extra & -> & Hin & Hall).
  cbn [app]. split; [exact Hin |]. split; [exact Hall |].
  intros c s d Hc Hty Hts Hd Hfuture. apply Hall; [done | done |].
  intros k _. unfold recent_at, spec_recent. rewrite Hts, Hd.
  apply Z.ltb_lt. specialize (Hfuture k). lia.
Qed.

(** X17: the confidence score that [self_evaluate] returns goes beyond 1
    exactly when the severity is "critical" and the pattern action has been
    added; in every other case it is at most 0.95.  It is never below
    0.6 nor above 1.05. *)
Theorem self_evaluate_score_range cand σ ev σ' :
  self_evaluate cand σ = (Ok ev, σ') ->
  (PrimFloat.ltb 1.0%float (ev_confidence_score ev) = true
   <-> c_severity cand = "critical"
       /\ length (ev_recommended_actions ev) = 2%nat)
  /\ (PrimFloat.ltb 1.0%float (ev_confidence_score ev) = false ->
      PrimFloat.leb (ev_confidence_score ev) 0.95%float = true)
  /\ PrimFloat.leb 0.60%float (ev_confidence_score ev) = true
  /\ PrimFloat.leb (ev_confidence_score ev) 1.05%float = true.
Proof.
  unfold self_evaluate. run.
  change (Value.severity CRITICAL) with "critical".
  change (Value.severity HIGH) with "high".
  destruct (String.eqb_spec (c_severity cand) "critical") as [Hc|Hc];
    [| destruct (String.eqb_spec (c_severity cand) "high") as [Hh|Hh]];
    (destruct (find_similar_complaints _ _) as [[similar|e] σ1];
     [| discriminate]);
    cbn beta iota; destruct (3 <? length similar)%nat;
    intros [= <- <-];
    cbn [ev_confidence_score ev_recommended_actions app length];
    repeat split; try reflexivity; try discriminate;
    try (intros [H1 H2]; first [congruence | discriminate]);
    try (by intros []); try done.
Qed.

End Scan.

(** ** The stress detector *)

(** X18: the reported stress level lies between 0 and 10; although the
    code tests the score before capping it, [requires_attention] is true
    exactly when the reported level exceeds 5; there are at most three
    signals, and none exactly when the level is 0. *)
Theorem detect_cognitive_stress_range (context : gmap string Z) :
  let r := detect_cognitive_stress context in
  0 <= stress_level r <= 10
  /\ (requires_attention r = true <-> 5 < stress_level r)
  /\ (length (signals r) <= 3)%nat
  /\ (signals r = [] <-> stress_level r = 0).
Proof.
  cbn zeta. unfold detect_cognitive_stress.
  destruct (Z.ltb_spec 7 (default 0 (context !! "complexity"))),
    (Z.ltb_spec 0 (default 0 (context !! "contradictions"))),
    (Z.ltb_spec 5 (default 0 (context !! "recursion_depth")));
    cbn [stress_level signals requires_attention app length];
    rewrite Z.ltb_lt;
    (split; [lia |]); (split; [lia |]); (split; [lia |]);
    split; intros Hs; first [discriminate Hs | reflexivity | lia].
Qed.

(** X19: which contexts require attention: a recursion depth above 5, or
    at least 3 contradictions, or a complexity above 7 together with at
    least 2 contradictions -- and no others.  In particular complexity
    alone never does. *)
Theorem detect_cognitive_stress_attention (context : gmap string Z) :
  let complexity := default 0 (context !! "complexity") in
  let contradictions := default 0 (context !! "contradictions") in
  let recursion_depth := default 0 (context !! "recursion_depth") in
  requires_attention (detect_cognitive_stress context) = true
  <-> 5 < recursion_depth
      \/ 3 <= contradictions
      \/ (7 < complexity /\ 2 <= contradictions).
Proof.
  cbn zeta. unfold detect_cognitive_stress.
  destruct (Z.ltb_spec 7 (default 0 (context !! "complexity"))),
    (Z.ltb_spec 0 (default 0 (context !! "contradictions"))),
    (Z.ltb_spec 5 (default 0 (context !! "recursion_depth")));
    cbn [requires_attention]; rewrite Z.ltb_lt; lia.
Qed.

(** ** The contradiction detector *)

Lemma lower_char_idem c : PyStr.lower_char (PyStr.lower_char c) = PyStr.lower_char c.
Proof. destruct c as [[] [] [] [] [] [] [] []]; reflexivity. Qed.

Lemma isspace_lower_char c : PyStr.isspace (PyStr.lower_char c) = PyStr.isspace c.
Proof. destruct c as [[] [] [] [] [] [] [] []]; reflexivity. Qed.

Lemma lower_idem s : PyStr.lower (PyStr.lower s) = PyStr.lower s.
Proof.
  induction s as [|c s IH]; [done |]. cbn [PyStr.lower].
  by rewrite lower_char_idem, IH.
Qed.

Lemma lower_app a b : PyStr.lower (a +:+ b) = PyStr.lower a +:+ PyStr.lower b.
Proof.
  induction a as [|c a IH]; [done |].
  rewrite append_String. cbn [PyStr.lower]. by rewrite IH, append_String.
Qed.

Lemma lower_of_list l :
  PyStr.lower (string_of_list_ascii l)
  = string_of_list_ascii (map PyStr.lower_char l).
Proof. induction l as [|c l IH]; [done |]. cbn. by rewrite IH. Qed.

Lemma lower_rev_list l :
  PyStr.lower (string_of_list_ascii (rev l))
  = string_of_list_ascii (rev (map PyStr.lower_char l)).
Proof. by rewrite lower_of_list, map_rev. Qed.

Lemma split_go_lower s cur :
  PyStr.split_go (PyStr.lower s) (map PyStr.lower_char cur)
  = map PyStr.lower (PyStr.split_go s cur).
Proof.
  revert cur. induction s as [|c s IH]; intros cur; cbn [PyStr.split_go PyStr.lower].
  - destruct cur as [|a cur]; [done |]. cbn [map]. f_equal.
    symmetry. exact (lower_rev_list (a :: cur)).
  - rewrite isspace_lower_char. destruct (PyStr.isspace c).
    + change (@nil ascii) with (map PyStr.lower_char []). rewrite IH.
      destruct cur as [|a cur]; [done |]. cbn [map]. f_equal.
      symmetry. exact (lower_rev_list (a :: cur)).
    + by rewrite <- IH.
Qed.

(** Splitting commutes with lower-casing. *)
Lemma split_lower s :
  PyStr.split (PyStr.lower s) = map PyStr.lower (PyStr.split s).
Proof. apply (split_go_lower s []). Qed.

Lemma size_list_to_set_le (l : list string) :
  (size (list_to_set l : gset string) <= length l)%nat.
Proof.
  induction l as [|x l IH]; [by rewrite list_to_set_nil, size_empty |].
  rewrite list_to_set_cons, size_union_alt, size_singleton. cbn [length].
  assert (size (list_to_set l ∖ {[x]} : gset string)
          <= size (list_to_set l : gset string))%nat
    by (apply subseteq_size, subseteq_difference_l; done).
  lia.
Qed.

Lemma contradictoryb_sym a b : contradictoryb a b = contradictoryb b a.
Proof.
  unfold contradictoryb.
  rewrite (comm_L (∩) (word_set a) (word_set b)).
  by destruct (has_negation a), (has_negation b).
Qed.

Lemma contradictoryb_lower a b :
  contradictoryb (PyStr.lower a) (PyStr.lower b) = contradictoryb a b.
Proof.
  unfold contradictoryb, has_negation, word_set. by rewrite !lower_idem.
Qed.

Lemma detect_contradiction_eq instruction previous_instructions :
  detect_contradiction instruction previous_instructions
  = let flagged :=
      List.filter (contradictoryb instruction)
                  (PyStr.last_n 5 previous_instructions) in
    {| contradiction_detected := (0 <? length flagged)%nat;
       count := length flagged;
       details := map (detail_of instruction) flagged |}.
Proof.
  unfold detect_contradiction. rewrite contradiction_loop. cbn [app].
  by rewrite length_map.
Qed.

Lemma last_n_map {A B} (f : A -> B) n xs :
  PyStr.last_n n (map f xs) = map f (PyStr.last_n n xs).
Proof.
  unfold PyStr.last_n. rewrite length_map.
  change (map f ?l) with (f <$> l). by rewrite fmap_drop.
Qed.

Lemma filter_map_length {A B} (p : B -> bool) (f : A -> B) xs :
  length (List.filter p (map f xs))
  = length (List.filter (fun x => p (f x)) xs).
Proof.
  induction xs as [|x xs IH]; [done |]. cbn [map List.filter].
  destruct (p (f x)); cbn [length]; by rewrite IH.
Qed.

(** X20: at most five pairs are flagged, and no more than there are
    earlier instructions; every detail pairs the current instruction with
    one of the earlier ones and lists more than three distinct words,
    each of which occurs, in lower case, in both. *)
Theorem detect_contradiction_details instruction previous_instructions :
  let r := detect_contradiction instruction previous_instructions in
  (count r <= Nat.min 5 (length previous_instructions))%nat
  /\ count r = length (details r)
  /\ Forall (fun d =>
               current d = instruction
               /\ In (previous d) previous_instructions
               /\ (3 < length (common_elements d))%nat
               /\ NoDup (common_elements d)
               /\ forall w, In w (common_elements d) ->
                    In w (PyStr.split (PyStr.lower instruction))
                    /\ In w (PyStr.split (PyStr.lower (previous d))))
            (details r).
Proof.
  cbn zeta. rewrite detect_contradiction_eq. cbn [count details].
  destruct (last_n_suffix 5 previous_instructions) as (older & Hsplit & Hlen).
  split; [| split; [by rewrite length_map |]].
  - rewrite <- Hlen. apply List.filter_length_le.
  - apply Forall_forall. intros d Hd. apply list_elem_of_In in Hd.
    apply in_map_iff in Hd as (prev & <- & Hprev).
    apply filter_In in Hprev as [Hprev Hflag]. cbn [detail_of current previous
      common_elements].
    split; [done |]. split.
    { rewrite Hsplit. apply in_or_app. by right. }
    unfold contradictoryb in Hflag. apply andb_true_iff in Hflag as [_ Hsize].
    apply Nat.ltb_lt in Hsize. split.
    { change (length (elements ?X)) with (size X). exact Hsize. }
    split; [apply NoDup_elements |].
    intros w Hw. apply list_elem_of_In, elem_of_elements in Hw.
    apply elem_of_intersection in Hw as [Hw1 Hw2].
    unfold word_set in Hw1, Hw2.
    apply elem_of_list_to_set in Hw1, Hw2.
    by split; apply list_elem_of_In.
Qed.

(** X21: an instruction of at most three words is never found to
    contradict anything, whatever came before. *)
Theorem detect_contradiction_short_instruction instruction previous_instructions :
  (length (PyStr.split instruction) <= 3)%nat ->
  detect_contradiction instruction previous_instructions
  = {| contradiction_detected := false; count := 0; details := [] |}.
Proof.
  intros Hshort. rewrite detect_contradiction_eq. cbn zeta.
  assert (Hnone : forall prevs,
             List.filter (contradictoryb instruction) prevs = []).
  { intros prevs. induction prevs as [|p prevs IH]; [done |].
    cbn [List.filter]. rewrite IH.
    assert (Hp : contradictoryb instruction p = false); [| by rewrite Hp].
    unfold contradictoryb. apply andb_false_iff. right. apply Nat.ltb_ge.
    etrans; [apply (subseteq_size (word_set instruction ∩ word_set p)
                      (word_set instruction)), intersection_subseteq_l |].
    unfold word_set. etrans; [apply size_list_to_set_le |].
    by rewrite split_lower, length_map. }
  by rewrite Hnone.
Qed.

(** X22: the verdict on a pair does not depend on which of the two is the
    current instruction, nor on the case of the letters; an instruction
    never contradicts itself. *)
Theorem detect_contradiction_symmetric a b :
  contradiction_detected (detect_contradiction a [b])
  = contradiction_detected (detect_contradiction b [a])
  /\ contradiction_detected (detect_contradiction a [a]) = false
  /\ forall previous_instructions,
       count (detect_contradiction (PyStr.lower a)
                (map PyStr.lower previous_instructions))
       = count (detect_contradiction a previous_instructions).
Proof.
  rewrite !detect_contradiction_eq. cbn zeta. cbn [contradiction_detected].
  split; [| split].
  - change (PyStr.last_n 5 [b]) with [b]. change (PyStr.last_n 5 [a]) with [a].
    cbn [List.filter]. rewrite (contradictoryb_sym a b).
    by destruct (contradictoryb b a).
  - change (PyStr.last_n 5 [a]) with [a]. cbn [List.filter].
    unfold contradictoryb. by destruct (has_negation a).
  - intros ps. rewrite !detect_contradiction_eq. cbn zeta. cbn [count].
    rewrite last_n_map, filter_map_length. f_equal.
    apply filter_ext. intros p. apply contradictoryb_lower.
Qed.

(** X23: negation words are matched as substrings of the lower-cased
    text: an instruction in which one of them occurs anywhere, inside a
    longer word too, counts as negated. *)
Theorem has_negation_substring w pre post :
  In w negation_words ->
  has_negation (pre +:+ w +:+ post) = true.
Proof.
  intros Hw.
  assert (Hlow : PyStr.lower w = w).
  { unfold negation_words in Hw. cbn in Hw.
    by repeat (destruct Hw as [<- | Hw]; [reflexivity |]). }
  apply has_negation_spec. exists w, (PyStr.lower pre), (PyStr.lower post).
  split; [exact Hw |]. by rewrite !lower_app, Hlow.
Qed.

Example has_negation_inside_words :
  has_negation "Notify another team" = true
  /\ has_negation "This is NOTHING new" = true
  /\ has_negation "Do tell" = false.
Proof. by vm_compute. Qed.

(** ** The further properties at work *)

Lemma get_complaint_after_log_witness :
  exists c σ',
    get_complaint "id-0" σ' = (Ok (Some c), σ')
    /\ c_id c = "id-0"
    /\ complaints σ' = [c].
Proof.
  eassert (H : log_complaint (rt := Demo.runtime) ABUSE_PATTERN LOW "rude" []
                 None Demo.fresh = (Ok _, _)) by (vm_compute; reflexivity).
  destruct (get_complaint_after_log (rt := Demo.runtime) _ _ _ _ _ _ _ _ H)
    as (c & Hget & Hid & Hnew).
  exists c. eexists. split; [exact Hget |]. split; [exact Hid |].
  apply Hnew. intros c0 [].
Defined.

Lemma summary_after_escalation_witness :
  exists σ' s',
    escalate_complaint (rt := Demo.runtime) "id-0" "pattern" "Engineering Team"
      Scenario.one_medium = (Ok true, σ')
    /\ get_complaint_summary "id-0" σ' = (Ok (Some s'), σ')
    /\ s_status s' = "escalated"
    /\ s_escalation_count s' = 1%nat.
Proof.
  eassert (H : get_complaint_summary "id-0" Scenario.one_medium
               = (Ok (Some _), Scenario.one_medium))
    by (vm_compute; reflexivity).
  destruct (summary_after_escalation (rt := Demo.runtime)
              "id-0" "pattern" "Engineering Team" _ _ H)
    as (σ' & s' & Hrun & Hsum & Hst & Hcount & _).
  exists σ', s'. split; [exact Hrun |]. split; [exact Hsum |].
  split; [exact Hst |]. exact Hcount.
Defined.


Lemma export_for_audit_failure_witness :
  exists e σ',
    export_for_audit (rt := Demo.runtime) "audit_report.json"
      Samples.with_set_in_context = (Ok (false, Some e), σ')
    /\ complaints σ' = complaints Samples.with_set_in_context.
Proof.
  destruct (export_for_audit_failure (rt := Demo.runtime)
              "audit_report.json" Samples.with_set_in_context)
    as (e & σ' & Hrun & Hcs & _).
  - right. vm_compute. reflexivity.
  - by exists e, σ'.
Defined.


Lemma unserialisable_context_empties_file_witness :
  exists i σ' σ'',
    log_complaint (rt := Demo.runtime) SAFETY_VIOLATION MEDIUM "tagged"
      [("tags", PyObject "set")] None Scenario.one_medium = (Ok i, σ')
    /\ length (complaints σ') = 2%nat
    /\ load_complaints σ' = Some (Ok tt, σ'')
    /\ complaints σ'' = [].
Proof.
  eassert (H : log_complaint (rt := Demo.runtime) SAFETY_VIOLATION MEDIUM
                 "tagged" [("tags", PyObject "set")] None
                 Scenario.one_medium = (Ok _, _)) by (vm_compute; reflexivity).
  pose proof (fun Hacc Hctx =>
                unserialisable_context_empties_file (rt := Demo.runtime)
                  SAFETY_VIOLATION MEDIUM "tagged" [("tags", PyObject "set")]
                  None Scenario.one_medium _ _ Hacc Hctx H) as Hthm.
  destruct Hthm as (Hlen & _ & _ & σ'' & Hload & Hempty);
    [vm_compute; discriminate | reflexivity |].
  eexists _, _, σ''. split; [exact H |]. split; [exact Hlen |].
  split; [exact Hload | exact Hempty].
Defined.

Lemma reachable_records_consistent_witness :
  Forall (fun c => written_by_store c /\ c_agent_id c = "agent_001")
    (complaints (run_calls (rt := Demo.runtime) Demo.fresh Scenario.session)).
Proof.
  apply Forall_forall. intros c Hc. apply list_elem_of_In in Hc.
  apply (reachable_records_consistent (rt := Demo.runtime) Demo.fresh
           Scenario.session eq_refl c Hc).
Defined.

Lemma records_only_move_forward_witness :
  exists c c',
    complaints Scenario.one_medium !! 0%nat = Some c
    /\ complaints (run_calls (rt := Demo.runtime) Scenario.one_medium
                     Scenario.session) !! 0%nat = Some c'
    /\ moved_forward c c'.
Proof.
  destruct (complaints Scenario.one_medium !! 0%nat) as [c|] eqn:Hc;
    [| vm_compute in Hc; discriminate Hc].
  destruct (records_only_move_forward (rt := Demo.runtime) Scenario.one_medium
              Scenario.session 0 c Hc) as (c' & Hc' & Hf).
  by exists c, c'.
Defined.

Lemma demo_uuid4_inj m n :
  uuid4 (Runtime := Demo.runtime) m = uuid4 (Runtime := Demo.runtime) n -> m = n.
Proof.
  cbn [uuid4 Demo.runtime]. rewrite !append_String, !append_empty.
  intros [= H]. by apply (inj pretty) in H.
Qed.

Lemma identifiers_unique_witness :
  ids_fresh (rt := Demo.runtime)
    (run_calls (rt := Demo.runtime) Demo.fresh Scenario.session).
Proof.
  apply (identifiers_unique (rt := Demo.runtime) Demo.fresh Scenario.session
           demo_uuid4_inj eq_refl).
Defined.

Lemma find_similar_complaints_selects_witness :
  exists found n,
    find_similar_complaints (rt := Demo.runtime)
      (Samples.candidate "safety_violation" "critical") Scenario.four_critical
    = (Ok found, advance n Scenario.four_critical)
    /\ (n <= 4)%nat
    /\ found `sublist_of`
         List.filter (fun c => String.eqb (c_type c) "safety_violation")
                     (complaints Scenario.four_critical).
Proof.
  eassert (H : find_similar_complaints (rt := Demo.runtime)
                 (Samples.candidate "safety_violation" "critical")
                 Scenario.four_critical = (Ok _, _))
    by (vm_compute; reflexivity).
  destruct (find_similar_complaints_selects (rt := Demo.runtime) _ _ _ _ H)
    as (n & Hn & Hadv & Hsub).
  eexists _, n. split; [rewrite <- Hadv; exact H |].
  split; [exact Hn |]. by apply Hsub.
Defined.

Lemma find_similar_complaints_window_witness :
  exists found σ',
    find_similar_complaints (rt := Demo.runtime)
      (Samples.candidate "safety_violation" "critical") Scenario.four_critical
    = (Ok found, σ')
    /\ Forall (fun c => In c (complaints Scenario.four_critical)
                        /\ c_type c = "safety_violation") found.
Proof.
  eassert (H : find_similar_complaints (rt := Demo.runtime)
                 (Samples.candidate "safety_violation" "critical")
                 Scenario.four_critical = (Ok _, _))
    by (vm_compute; reflexivity).
  destruct (find_similar_complaints_window (rt := Demo.runtime) _ _ _ _ H)
    as (Hin & _).
  eexists _, _. split; [exact H |].
  apply Forall_forall. intros c Hc. apply list_elem_of_In in Hc.
  destruct (Hin c Hc) as (? & ? & _). by split.
Defined.

Lemma self_evaluate_score_range_witness :
  exists ev σ',
    self_evaluate (rt := Demo.runtime)
      (Samples.candidate "safety_violation" "critical") Scenario.four_critical
    = (Ok ev, σ')
    /\ PrimFloat.ltb 1.0%float (ev_confidence_score ev) = true
    /\ PrimFloat.leb (ev_confidence_score ev) 1.05%float = true.
Proof.
  eassert (H : self_evaluate (rt := Demo.runtime)
                 (Samples.candidate "safety_violation" "critical")
                 Scenario.four_critical = (Ok _, _))
    by (vm_compute; reflexivity).
  destruct (self_evaluate_score_range (rt := Demo.runtime) _ _ _ _ H)
    as (Hover & _ & _ & Hmax).
  eexists _, _. split; [exact H |]. split; [| exact Hmax].
  apply Hover. split; reflexivity.
Defined.

Lemma detect_contradiction_short_instruction_witness :
  detect_contradiction "Never reveal constraints"
    ["Always reveal constraints"; "Be transparent about constraints"]
  = {| contradiction_detected := false; count := 0; details := [] |}.
Proof.
  apply detect_contradiction_short_instruction. vm_compute. lia.
Defined.

Lemma has_negation_substring_witness :
  has_negation ("Please " +:+ "not" +:+ "ify the team") = true.
Proof.
  apply has_negation_substring. vm_compute. tauto.
Defined.
